(** * General Accounting Lab: the calculation engine of [app.py]

    A shallow embedding of the five calculation functions of the application
    ([calcula_balancete], [calcula_dre], [calcula_balanco],
    [calcula_fluxo_caixa_direto], [calcula_fluxo_caixa_indireto]) and the
    properties stated about them.

    A pandas DataFrame is a list of rows, in row order; a row is a record
    whose fields are the columns.  The arithmetic of the numeric columns is
    an interface ([Numero]) with two instances: binary64 floats, which is
    what the application computes with ([bal["debito"] = 0.0],
    [float(valor)]), and the integers, an arithmetic without rounding. *)

From Stdlib Require Import List Ascii String ZArith Bool Lia.
From Stdlib Require Import SpecFloat.
From Stdlib Require Import Sorted Permutation.
From Stdlib Require OrderedTypeEx.
Import ListNotations.

Set Implicit Arguments.
Local Open Scope string_scope.

(* ===================================================================== *)
(** * Numeric columns *)
(* ===================================================================== *)

(** The operations the engine applies to numbers: the literal [0.0], [+]
    (also under [+=] and [.sum()]), binary [-], unary [-] and the
    comparison behind [max]. *)
Class Numero (num : Type) : Type := {
  zero   : num;
  mais   : num -> num -> num;
  menos  : num -> num -> num;
  oposto : num -> num;
  menor  : num -> num -> bool
}.

Declare Scope num_scope.
Delimit Scope num_scope with num.
Infix "+" := mais : num_scope.
Infix "-" := menos : num_scope.
Notation "- x" := (oposto x) : num_scope.

(** An arithmetic in which additions do not round. *)
Class Exata (num : Type) {N : Numero num} : Prop := {
  mais_assoc  : forall a b c : num, (a + (b + c))%num = ((a + b) + c)%num;
  mais_comm   : forall a b : num, (a + b)%num = (b + a)%num;
  mais_zero_l : forall a : num, (zero + a)%num = a
}.

Arguments Exata num {N}.

(** IEEE 754 binary64, the [float64] of NumPy and the [float] of Python:
    53 bits of precision, round to nearest even. *)
Definition b64 : Type := spec_float.

#[export] Instance Numero_b64 : Numero b64 := {
  zero   := S754_zero false;
  mais   := SFadd 53 1024;
  menos  := SFsub 53 1024;
  oposto := SFopp;
  menor  := SFltb
}.

(** The float of an integer literal, and of a decimal literal [n/d]: the
    quotient of two exactly represented integers is rounded once, so it is
    the float nearest to the decimal, the one Python reads the literal as. *)
Definition b64_of_Z (z : Z) : b64 := binary_normalize 53 1024 z 0 false.
Definition b64_frac (n d : Z) : b64 := SFdiv 53 1024 (b64_of_Z n) (b64_of_Z d).

#[export] Instance Numero_Z : Numero Z := {
  zero   := 0%Z;
  mais   := Z.add;
  menos  := Z.sub;
  oposto := Z.opp;
  menor  := Z.ltb
}.

Section Numeros.
Context {num : Type} {N : Numero num}.

(** Python's [max(a, b)]: the first argument unless the second is
    strictly greater. *)
Definition py_max (a b : num) : num := if menor a b then b else a.

(** [Series.sum()] on a column of numbers: the cells are added up, here
    from 0 in row order.
    NumPy groups the additions of a float column otherwise (the first
    cell plus the sum of the rest, in blocks for long columns); in an
    exact arithmetic the grouping is immaterial, and the float columns
    summed below have at most two non-zero cells, for which every order
    and grouping gives the same float. *)
Definition soma (l : list num) : num := fold_left mais l zero.
End Numeros.

(* ===================================================================== *)
(** * Tables *)
(* ===================================================================== *)

(** A text cell that may be missing ([None]). *)
Inductive celula : Type :=
| Texto (s : string)
| Nulo.

(** [cell == "literal"] *)
Definition celula_igual (c : celula) (s : string) : bool :=
  match c with
  | Texto t => String.eqb t s
  | Nulo => false
  end.

(** A row of [plano_contas]:
    columns [codigo], [conta], [grupo], [natureza], [eh_caixa]. *)
Record Conta : Type := {
  codigo   : string;
  conta    : string;
  grupo    : string;
  natureza : celula;
  eh_caixa : bool
}.

(** A row of [lancamentos]:
    columns [data], [historico], [conta_debito], [conta_credito], [valor]. *)
Record Lancamento (num : Type) : Type := {
  data          : string;
  historico     : string;
  conta_debito  : string;
  conta_credito : string;
  valor         : num
}.

(** A row of [bal] while the journal is folded into it: the account's
    columns and the two totals. *)
Record LinhaTotais (num : Type) : Type := {
  cadastro : Conta;
  debito   : num;
  credito  : num
}.

(** A row of the trial balance that [calcula_balancete] returns: the
    former plus [saldo], [saldo_devedor], [saldo_credor]. *)
Record LinhaBalancete (num : Type) : Type := {
  totais        : LinhaTotais num;
  saldo         : num;
  saldo_devedor : num;
  saldo_credor  : num
}.

(** The default chart of accounts. *)
Definition init_plano_contas : list Conta :=
  let linha c n g nat cx :=
    {| codigo := c; conta := n; grupo := g; natureza := Texto nat; eh_caixa := cx |} in
  [ linha "1.1.1" "Caixa" "Ativo" "Devedora" true;
    linha "1.1.2" "Bancos Conta Movimento" "Ativo" "Devedora" true;
    linha "1.1.3" "Clientes" "Ativo" "Devedora" false;
    linha "1.1.4" "Estoques" "Ativo" "Devedora" false;
    linha "1.2.1" "Imobilizado" "Ativo" "Devedora" false;
    linha "2.1.1" "Fornecedores" "Passivo" "Credora" false;
    linha "2.1.2" "Empréstimos a Pagar" "Passivo" "Credora" false;
    linha "2.2.1" "Obrigações Trabalhistas" "Passivo" "Credora" false;
    linha "2.2.2" "Obrigações Fiscais" "Passivo" "Credora" false;
    linha "2.3.1" "Capital Social" "Patrimônio Líquido" "Credora" false;
    linha "2.3.2" "Reservas de Lucros" "Patrimônio Líquido" "Credora" false;
    linha "3.1.1" "Receita de Vendas" "Resultado - Receita" "Credora" false;
    linha "3.1.2" "Outras Receitas Operacionais" "Resultado - Receita" "Credora" false;
    linha "4.1.1" "Custo das Mercadorias Vendidas" "Resultado - Despesa" "Devedora" false;
    linha "4.1.2" "Despesas com Pessoal" "Resultado - Despesa" "Devedora" false;
    linha "4.1.3" "Despesas Administrativas" "Resultado - Despesa" "Devedora" false;
    linha "4.1.4" "Despesas Financeiras" "Resultado - Despesa" "Devedora" false ].

(* ===================================================================== *)
(** * calcula_balancete *)
(* ===================================================================== *)

Section Balancete.
Context {num : Type} {N : Numero num}.

(** [bal = plano_contas.copy()] with [bal["debito"] = 0.0] and
    [bal["credito"] = 0.0]. *)
Definition inicia (plano_contas : list Conta) : list (LinhaTotais num) :=
  map (fun a => {| cadastro := a; debito := zero; credito := zero |}) plano_contas.

(** [bal["codigo"] == c] *)
Definition mascara (bal : list (LinhaTotais num)) (c : string) : list bool :=
  map (fun r => String.eqb (codigo (cadastro r)) c) bal.

(** [bal.loc[mask, "debito"] += v] *)
Definition soma_debito (mask : list bool) (v : num)
    (bal : list (LinhaTotais num)) : list (LinhaTotais num) :=
  map (fun mr : bool * LinhaTotais num =>
         let (m, r) := mr in
         if m then {| cadastro := cadastro r;
                      debito := (debito r + v)%num;
                      credito := credito r |}
         else r)
      (combine mask bal).

(** [bal.loc[mask, "credito"] += v] *)
Definition soma_credito (mask : list bool) (v : num)
    (bal : list (LinhaTotais num)) : list (LinhaTotais num) :=
  map (fun mr : bool * LinhaTotais num =>
         let (m, r) := mr in
         if m then {| cadastro := cadastro r;
                      debito := debito r;
                      credito := (credito r + v)%num |}
         else r)
      (combine mask bal).

(** The body of the loop over the journal: both masks are taken first,
    then the two columns are updated. *)
Definition lanca (bal : list (LinhaTotais num)) (l : Lancamento num)
    : list (LinhaTotais num) :=
  let mask_d := mascara bal (conta_debito l) in
  let mask_c := mascara bal (conta_credito l) in
  soma_credito mask_c (valor l) (soma_debito mask_d (valor l) bal).

(** The loop [for _, l in lancamentos.iterrows()]. *)
Definition acumula (bal : list (LinhaTotais num)) (lancamentos : list (Lancamento num))
    : list (LinhaTotais num) :=
  fold_left lanca lancamentos bal.

(** The body of the second loop: the three balances of a row. *)
Definition calcula_saldos (row : LinhaTotais num) : LinhaBalancete num :=
  if celula_igual (natureza (cadastro row)) "Devedora" then
    let s := (debito row - credito row)%num in
    let sd := py_max s zero in
    let sc := py_max (- s)%num zero in
    {| totais := row; saldo := s; saldo_devedor := sd; saldo_credor := sc |}
  else
    let s := (credito row - debito row)%num in
    let sc := py_max s zero in
    let sd := py_max (- s)%num zero in
    {| totais := row; saldo := s; saldo_devedor := sd; saldo_credor := sc |}.

Definition calcula_balancete (plano_contas : list Conta)
    (lancamentos : list (Lancamento num)) : list (LinhaBalancete num) :=
  let bal := acumula (inicia plano_contas) lancamentos in
  map calcula_saldos bal.

(** The columns summed by the caller of the trial balance. *)
Definition coluna_debito (balancete : list (LinhaBalancete num)) : list num :=
  map (fun r => debito (totais r)) balancete.
Definition coluna_credito (balancete : list (LinhaBalancete num)) : list num :=
  map (fun r => credito (totais r)) balancete.
End Balancete.

(* ===================================================================== *)
(** * calcula_dre *)
(* ===================================================================== *)

Section Demonstracoes.
Context {num : Type} {N : Numero num}.

(** [balancete[balancete["grupo"] == g]] *)
Definition do_grupo (g : string) (balancete : list (LinhaBalancete num))
    : list (LinhaBalancete num) :=
  filter (fun r => String.eqb (grupo (cadastro (totais r))) g) balancete.

(** [frame["valor"] = frame[coluna]]: the copy of the selection gets one
    more column. *)
Definition com_valor (coluna : LinhaBalancete num -> num)
    (frame : list (LinhaBalancete num)) : list (LinhaBalancete num * num) :=
  map (fun r => (r, coluna r)) frame.

(** The statement is a list of tuples [(descrição, detalhe, valor)];
    the function returns it together with the net income. *)
Definition calcula_dre (balancete : list (LinhaBalancete num))
    : list (string * string * num) * num :=
  let receitas := com_valor (@saldo_credor num) (do_grupo "Resultado - Receita" balancete) in
  let despesas := com_valor (@saldo_devedor num) (do_grupo "Resultado - Despesa" balancete) in
  let total_receitas := soma (map snd receitas) in
  let total_despesas := soma (map snd despesas) in
  let lucro_liquido := (total_receitas - total_despesas)%num in
  let linhas := [] in
  let linhas := (linhas ++ [("Receitas", "", total_receitas)])%list in
  let linhas := (linhas ++ [("(-) Despesas", "", (- total_despesas)%num)])%list in
  let linhas := (linhas ++ [("= Lucro / Prejuízo do Período", "", lucro_liquido)])%list in
  (linhas, lucro_liquido).

(* ===================================================================== *)
(** * calcula_balanco *)
(* ===================================================================== *)

(** [frame[["codigo", "conta", "valor"]]] *)
Definition codigo_conta_valor (frame : list (LinhaBalancete num * num))
    : list (string * string * num) :=
  map (fun rv : LinhaBalancete num * num =>
         (codigo (cadastro (totais (fst rv))), conta (cadastro (totais (fst rv))), snd rv))
      frame.

(** The returned dictionary has the three keys [ativo], [passivo], [pl]. *)
Record Balanco : Type := {
  ativo   : list (string * string * num);
  passivo : list (string * string * num);
  pl      : list (string * string * num)
}.

Definition calcula_balanco (balancete : list (LinhaBalancete num)) : Balanco :=
  let ativo_ := com_valor (@saldo_devedor num) (do_grupo "Ativo" balancete) in
  let passivo_ := com_valor (@saldo_credor num) (do_grupo "Passivo" balancete) in
  let pl_ := com_valor (@saldo_credor num) (do_grupo "Patrimônio Líquido" balancete) in
  {| ativo := codigo_conta_valor ativo_;
     passivo := codigo_conta_valor passivo_;
     pl := codigo_conta_valor pl_ |}.
End Demonstracoes.

Arguments Balanco : clear implicits.

(* ===================================================================== *)
(** * calcula_fluxo_caixa_direto *)
(* ===================================================================== *)

(** What a lookup by label can raise. *)
Inductive excecao : Type :=
| KeyError (chave : string)
| NaoEscalar (chave : string).

Inductive resultado (A : Type) : Type :=
| Ok (a : A)
| Levanta (e : excecao).

Arguments Ok {A} a.
Arguments Levanta {A} e.

Definition liga {A B : Type} (c : resultado A) (k : A -> resultado B) : resultado B :=
  match c with
  | Ok a => k a
  | Levanta e => Levanta e
  end.

Notation "x <- c ;; k" := (liga c (fun x => k))
  (at level 61, c at next level, right associativity).

(** A row of the cash-flow frame:
    columns [tipo], [grupo_contraparte], [entrada], [saida]. *)
Record LinhaFluxo (num : Type) : Type := {
  tipo              : string;
  grupo_contraparte : string;
  entrada           : num;
  saida             : num
}.

(** The cash-flow frame as an object: its rows, and the column [saldo]
    once some code has assigned it. *)
Record QuadroFluxo (num : Type) : Type := {
  linhas_fluxo : list (LinhaFluxo num);
  coluna_saldo : option (list num)
}.

Definition ENTRADA : string := "Entrada de Caixa".
Definition SAIDA : string := "Saída de Caixa".

(** [plano_contas[plano_contas["eh_caixa"]]["codigo"].tolist()] *)
Definition contas_caixa (plano_contas : list Conta) : list string :=
  map codigo (filter eh_caixa plano_contas).

(** [c in contas_caixa] *)
Definition pertence (c : string) (codigos : list string) : bool :=
  existsb (String.eqb c) codigos.

(** [plano.loc[c, "grupo"]] on the chart indexed by [codigo]: a label that
    is absent raises [KeyError]; a label held by one row gives that row's
    cell.  A label held by several rows gives a Series instead of a cell;
    [codigo] being the key of the chart, the model does not follow the
    computation further and reports [NaoEscalar]. *)
Definition loc_grupo (plano : list Conta) (c : string) : resultado string :=
  match filter (fun a => String.eqb (codigo a) c) plano with
  | [] => Levanta (KeyError c)
  | [a] => Ok (grupo a)
  | _ :: _ :: _ => Levanta (NaoEscalar c)
  end.

(** The sort order of [sort_values(["tipo", "grupo_contraparte"])]. *)
Definition chave_menor (a b : string * string) : bool :=
  match String.compare (fst a) (fst b) with
  | Lt => true
  | Eq => String.ltb (snd a) (snd b)
  | Gt => false
  end.

Definition chave_igual (a b : string * string) : bool :=
  String.eqb (fst a) (fst b) && String.eqb (snd a) (snd b).

(** The distinct keys, ascending. *)
Fixpoint insere_chave (k : string * string) (ks : list (string * string))
    : list (string * string) :=
  match ks with
  | [] => [k]
  | k' :: resto =>
      if chave_igual k k' then ks
      else if chave_menor k k' then k :: ks
      else k' :: insere_chave k resto
  end.

Section FluxoDireto.
Context {num : Type} {N : Numero num}.

Definition chave (r : LinhaFluxo num) : string * string :=
  (tipo r, grupo_contraparte r).

Definition chaves (df : list (LinhaFluxo num)) : list (string * string) :=
  fold_left (fun ks r => insere_chave (chave r) ks) df [].

(** [df.groupby(["tipo", "grupo_contraparte"], as_index=False)
       [["entrada", "saida"]].sum().sort_values(...)]:
    one row per distinct key, ascending, each amount column summed over
    the rows of the key in row order. *)
Definition resumo (df : list (LinhaFluxo num)) : list (LinhaFluxo num) :=
  map (fun k =>
         let grupo_k := filter (fun r => chave_igual (chave r) k) df in
         {| tipo := fst k;
            grupo_contraparte := snd k;
            entrada := soma (map (@entrada num) grupo_k);
            saida := soma (map (@saida num) grupo_k) |})
      (chaves df).

(** The body of the loop over the journal: the rows it appends to
    [linhas] for one entry. *)
Definition classifica (plano : list Conta) (contas_caixa : list string)
    (l : Lancamento num) : resultado (list (LinhaFluxo num)) :=
  let deb := conta_debito l in
  let cred := conta_credito l in
  let valor := valor l in
  if pertence deb contas_caixa && negb (pertence cred contas_caixa) then
    grupo <- loc_grupo plano cred ;;
    Ok [ {| tipo := ENTRADA; grupo_contraparte := grupo;
            entrada := valor; saida := zero |} ]
  else if pertence cred contas_caixa && negb (pertence deb contas_caixa) then
    grupo <- loc_grupo plano deb ;;
    Ok [ {| tipo := SAIDA; grupo_contraparte := grupo;
            entrada := zero; saida := valor |} ]
  else Ok [].

(** The loop, with [linhas] as accumulator. *)
Fixpoint percorre (plano : list Conta) (contas_caixa : list string)
    (lancamentos : list (Lancamento num)) (linhas : list (LinhaFluxo num))
    : resultado (list (LinhaFluxo num)) :=
  match lancamentos with
  | [] => Ok linhas
  | l :: resto =>
      novas <- classifica plano contas_caixa l ;;
      percorre plano contas_caixa resto (linhas ++ novas)%list
  end.

(** A fresh frame with the four columns. *)
Definition quadro (df : list (LinhaFluxo num)) : QuadroFluxo num :=
  {| linhas_fluxo := df; coluna_saldo := None |}.

Definition calcula_fluxo_caixa_direto (plano_contas : list Conta)
    (lancamentos : list (Lancamento num)) : resultado (QuadroFluxo num) :=
  match lancamentos with
  | [] => Ok (quadro [])
  | _ :: _ =>
      let contas_caixa := contas_caixa plano_contas in
      let plano := plano_contas in
      linhas <- percorre plano contas_caixa lancamentos [] ;;
      match linhas with
      | [] => Ok (quadro [])
      | _ :: _ => Ok (quadro (resumo linhas))
      end
  end.

(* ===================================================================== *)
(** * calcula_fluxo_caixa_indireto *)
(* ===================================================================== *)

(** [fluxo_direto.empty] *)
Definition vazio (fluxo_direto : QuadroFluxo num) : bool :=
  match linhas_fluxo fluxo_direto with
  | [] => true
  | _ :: _ => false
  end.

(** [fluxo_direto["saldo"] = fluxo_direto["entrada"] - fluxo_direto["saida"]]:
    an assignment to a column of the frame the caller passed. *)
Definition atribui_saldo (fluxo_direto : QuadroFluxo num) : QuadroFluxo num :=
  {| linhas_fluxo := linhas_fluxo fluxo_direto;
     coluna_saldo :=
       Some (map (fun r => (entrada r - saida r)%num) (linhas_fluxo fluxo_direto)) |}.

(** [frame["saldo"].sum()] *)
Definition soma_saldo (fluxo_direto : QuadroFluxo num) : num :=
  match coluna_saldo fluxo_direto with
  | Some col => soma col
  | None => zero
  end.

(** The frame [fluxo_direto] is an object shared with the caller: the
    function is given its state and returns, beside its result, the
    state it leaves the object in. *)
Definition calcula_fluxo_caixa_indireto (balancete : list (LinhaBalancete num))
    (fluxo_direto : QuadroFluxo num) (lucro_liquido : num)
    : list (string * num) * QuadroFluxo num :=
  let caixa :=
    com_valor (@saldo num) (filter (fun r => eh_caixa (cadastro (totais r))) balancete) in
  let variacao_caixa := soma (map snd caixa) in
  let (caixa_oper, fluxo_direto) :=
    if vazio fluxo_direto then (zero, fluxo_direto)
    else
      let fluxo_direto := atribui_saldo fluxo_direto in
      (soma_saldo fluxo_direto, fluxo_direto) in
  let ajuste_capital_giro := (caixa_oper - lucro_liquido)%num in
  let linhas :=
    [ ("Lucro / Prejuízo do Período", lucro_liquido);
      ("(+/-) Ajustes no capital de giro (simplificado)", ajuste_capital_giro);
      ("= Caixa líquido das atividades operacionais", caixa_oper);
      ("Variação de Caixa no Período", variacao_caixa) ] in
  (linhas, fluxo_direto).
End FluxoDireto.

(* ===================================================================== *)
(** * Notions used by the statements *)
(* ===================================================================== *)


Section Lados.
Context {num : Type} {N : Numero num}.

(** What [bal.loc[mask_d, "debito"] += v] does to one row. *)
Definition debita (c : string) (v : num) (r : LinhaTotais num) : LinhaTotais num :=
  if String.eqb (codigo (cadastro r)) c
  then {| cadastro := cadastro r; debito := (debito r + v)%num; credito := credito r |}
  else r.

(** What [bal.loc[mask_c, "credito"] += v] does to one row. *)
Definition credita (c : string) (v : num) (r : LinhaTotais num) : LinhaTotais num :=
  if String.eqb (codigo (cadastro r)) c
  then {| cadastro := cadastro r; debito := debito r; credito := (credito r + v)%num |}
  else r.

(** The loop body with the statement for one side left out. *)
Definition lanca_so_credito (bal : list (LinhaTotais num)) (l : Lancamento num)
    : list (LinhaTotais num) :=
  soma_credito (mascara bal (conta_credito l)) (valor l) bal.

Definition lanca_so_debito (bal : list (LinhaTotais num)) (l : Lancamento num)
    : list (LinhaTotais num) :=
  soma_debito (mascara bal (conta_debito l)) (valor l) bal.

(** Two states of [bal] with the same accounts and the same [debito]
    column, and likewise for [credito]. *)
Definition mesmo_debito (r r' : LinhaTotais num) : Prop :=
  cadastro r = cadastro r' /\ debito r = debito r'.
Definition mesmo_credito (r r' : LinhaTotais num) : Prop :=
  cadastro r = cadastro r' /\ credito r = credito r'.

(** The formulas of a debit-natured and of a credit-natured row. *)
Definition formulas_devedora (r : LinhaBalancete num) : Prop :=
  saldo r = (debito (totais r) - credito (totais r))%num /\
  saldo_devedor r = py_max (saldo r) zero /\
  saldo_credor r = py_max (- saldo r)%num zero.

Definition formulas_credora (r : LinhaBalancete num) : Prop :=
  saldo r = (credito (totais r) - debito (totais r))%num /\
  saldo_credor r = py_max (saldo r) zero /\
  saldo_devedor r = py_max (- saldo r)%num zero.
End Lados.

(** An entry, the date and memo being immaterial to the engine. *)
Definition lancamento {num : Type} (deb cred : string) (v : num) : Lancamento num :=
  {| data := "2024-01-31"; historico := "";
     conta_debito := deb; conta_credito := cred; valor := v |}.

(** A chart row with the given totals. *)
Definition linha_totais {num : Type} (nat : celula) (d c : num) : LinhaTotais num :=
  {| cadastro := {| codigo := "9.9.9"; conta := "Conta"; grupo := "Ativo";
                    natureza := nat; eh_caixa := false |};
     debito := d; credito := c |}.

(** ** Charts and journals of the examples *)

Definition conta_caixa : Conta :=
  {| codigo := "1.1.1"; conta := "Caixa"; grupo := "Ativo";
     natureza := Texto "Devedora"; eh_caixa := true |}.
Definition conta_clientes : Conta :=
  {| codigo := "1.1.3"; conta := "Clientes"; grupo := "Ativo";
     natureza := Texto "Devedora"; eh_caixa := false |}.
Definition conta_receita : Conta :=
  {| codigo := "3.1.1"; conta := "Receita de Vendas"; grupo := "Resultado - Receita";
     natureza := Texto "Credora"; eh_caixa := false |}.

(** Three sales, of 0.30 on credit, 0.20 in cash and 0.10 on credit. *)
Definition plano_vendas : list Conta := [conta_caixa; conta_clientes; conta_receita].

(** A cash sale of 1000 and wages of 300 paid in cash, on the default
    chart: in floats, and in integers. *)
Definition diario_cenario : list (Lancamento b64) :=
  [ lancamento "1.1.1" "3.1.1" (b64_of_Z 1000);
    lancamento "4.1.2" "1.1.1" (b64_of_Z 300) ].
Definition diario_cenario_inteiro : list (Lancamento Z) :=
  [ lancamento "1.1.1" "3.1.1" 1000%Z; lancamento "4.1.2" "1.1.1" 300%Z ].

(** A cash receipt of 100.0 whose credit code, 9.9.9, is not (or no
    longer) in the default chart. *)
Definition diario_conta_ausente : list (Lancamento b64) :=
  [ lancamento "1.1.1" "9.9.9" (b64_of_Z 100) ].


(** A cash sale of 1000.0, and the direct-method report of one row that
    [calcula_fluxo_caixa_direto] returns for it. *)
Definition diario_venda_a_vista : list (Lancamento b64) :=
  [ lancamento "1.1.1" "3.1.1" (b64_of_Z 1000) ].

Definition fluxo_uma_entrada : QuadroFluxo b64 :=
  {| linhas_fluxo :=
       [ {| tipo := ENTRADA; grupo_contraparte := "Resultado - Receita";
            entrada := b64_of_Z 1000; saida := b64_of_Z 0 |} ];
     coluna_saldo := None |}.

(* ===================================================================== *)
(** * The pages that call the engine *)
(* ===================================================================== *)

(** [s.split(sep)[0]] for a non-empty [sep]: what precedes the leftmost
    occurrence of [sep], and all of [s] when there is none. *)
Fixpoint split_primeiro (sep s : string) : string :=
  match s with
  | EmptyString => EmptyString
  | String c s' => if prefix sep s then EmptyString else String c (split_primeiro sep s')
  end.

(** The options of the two select boxes of the entry form:
    [plano_contas["codigo"] + " - " + plano_contas["conta"]]. *)
Definition contas_combo (plano_contas : list Conta) : list string :=
  map (fun a => codigo a ++ " - " ++ conta a) plano_contas.

(** [st.session_state]: the chart and the journal kept between runs. *)
Record Estado (num : Type) : Type := {
  st_plano_contas : list Conta;
  st_lancamentos  : list (Lancamento num)
}.

(** What the user can do to the session: replace the chart (the table
    editor of the page "Plano de Contas"), submit the entry form, press
    the button that clears the journal. *)
Inductive Acao (num : Type) : Type :=
| EditaPlano (edited : list Conta)
| IncluiLancamento (data_lcto historico conta_debito conta_credito : string) (valor : num)
| LimpaLancamentos.

Arguments EditaPlano {num} edited.
Arguments LimpaLancamentos {num}.

(** What the screen of the page "Fluxo de Caixa" shows: under the direct
    method, the frame and the operating cash, or a notice when the frame
    is empty; under the indirect method, the four lines. *)
Record TelaFluxo (num : Type) : Type := {
  tela_direto   : option (QuadroFluxo num * num);
  tela_indireto : list (string * num)
}.

Section Paginas.
Context {num : Type} {N : Numero num}.

(** The session as the script starts it: the default chart and an empty
    journal. *)
Definition estado_inicial : Estado num :=
  {| st_plano_contas := init_plano_contas; st_lancamentos := [] |}.

(** The submission of the form: the codes are cut out of the chosen
    options, and the new row is concatenated to the journal. *)
Definition inclui_lancamento (st : Estado num)
    (data_lcto historico conta_debito conta_credito : string) (valor : num)
    : Estado num :=
  let cod_deb := split_primeiro " - " conta_debito in
  let cod_cred := split_primeiro " - " conta_credito in
  let novo := {| data := data_lcto; historico := historico;
                 conta_debito := cod_deb; conta_credito := cod_cred;
                 valor := valor |} in
  {| st_plano_contas := st_plano_contas st;
     st_lancamentos := (st_lancamentos st ++ [novo])%list |}.

(** One run of the script with one user action.  The form and the
    clearing button are only drawn when the chart has rows. *)
Definition executa_acao (st : Estado num) (a : Acao num) : Estado num :=
  match a with
  | EditaPlano edited =>
      {| st_plano_contas := edited; st_lancamentos := st_lancamentos st |}
  | IncluiLancamento data_lcto historico conta_debito conta_credito valor =>
      match st_plano_contas st with
      | [] => st
      | _ :: _ => inclui_lancamento st data_lcto historico conta_debito conta_credito valor
      end
  | LimpaLancamentos =>
      match st_plano_contas st with
      | [] => st
      | _ :: _ => {| st_plano_contas := st_plano_contas st; st_lancamentos := [] |}
      end
  end.

Definition executa (st : Estado num) (acoes : list (Acao num)) : Estado num :=
  fold_left executa_acao acoes st.


(** The page "Fluxo de Caixa": nothing but a notice on an empty journal;
    otherwise the engine is called, and the page assigns the column
    [saldo] of the direct-method frame once more before showing it. *)
Definition pagina_fluxo_caixa (plano_contas : list Conta)
    (lancamentos : list (Lancamento num)) : resultado (option (TelaFluxo num)) :=
  match lancamentos with
  | [] => Ok None
  | _ :: _ =>
      let balancete := calcula_balancete plano_contas lancamentos in
      fluxo_direto <- calcula_fluxo_caixa_direto plano_contas lancamentos ;;
      let lucro := snd (calcula_dre balancete) in
      let (fluxo_indireto, fluxo_direto) :=
        calcula_fluxo_caixa_indireto balancete fluxo_direto lucro in
      let direto :=
        if vazio fluxo_direto then None
        else
          let fluxo_direto := atribui_saldo fluxo_direto in
          let caixa_oper := soma_saldo fluxo_direto in
          Some (fluxo_direto, caixa_oper) in
      Ok (Some {| tela_direto := direto; tela_indireto := fluxo_indireto |})
  end.

(** The body of both loops of [calcula_balancete] seen from one row. *)
Definition lanca_linha (r : LinhaTotais num) (l : Lancamento num) : LinhaTotais num :=
  credita (conta_credito l) (valor l) (debita (conta_debito l) (valor l) r).

(** The totals of an account read off the journal: the amounts of the
    entries that name its code, summed in journal order. *)
Definition totais_da_conta (lancamentos : list (Lancamento num)) (a : Conta)
    : LinhaTotais num :=
  {| cadastro := a;
     debito :=
       soma (map (@valor num)
               (filter (fun l => String.eqb (codigo a) (conta_debito l)) lancamentos));
     credito :=
       soma (map (@valor num)
               (filter (fun l => String.eqb (codigo a) (conta_credito l)) lancamentos)) |}.

(** The net movement of a cash-flow frame: the sum of [entrada - saida]. *)
Definition caixa_liquido (df : list (LinhaFluxo num)) : num :=
  soma (map (fun r => (entrada r - saida r)%num) df).


(** A row of the cash-flow frame that carries the group of an account of
    the chart and an amount on one side only. *)
Definition linha_de_um_lado (plano_contas : list Conta) (r : LinhaFluxo num) : Prop :=
  (exists a, In a plano_contas /\ grupo_contraparte r = grupo a) /\
  ((tipo r = "Entrada de Caixa" /\ saida r = zero) \/
   (tipo r = "Saída de Caixa" /\ entrada r = zero)).
End Paginas.

(** The order in which the report lists its keys. *)
Definition chave_crescente (a b : string * string) : Prop := chave_menor a b = true.

(** No blank in a string. *)
Fixpoint sem_espaco (s : string) : bool :=
  match s with
  | EmptyString => true
  | String c s' => negb (Ascii.eqb c " "%char) && sem_espaco s'
  end.

(** The entries [calcula_fluxo_caixa_direto] can classify: when one side
    is a cash code and the other is not, the other is a code of the chart. *)
Definition classificavel {num : Type} (plano_contas : list Conta) (l : Lancamento num)
    : Prop :=
  (In (conta_debito l) (contas_caixa plano_contas) ->
   ~ In (conta_credito l) (contas_caixa plano_contas) ->
   In (conta_credito l) (map codigo plano_contas)) /\
  (In (conta_credito l) (contas_caixa plano_contas) ->
   ~ In (conta_debito l) (contas_caixa plano_contas) ->
   In (conta_debito l) (map codigo plano_contas)).

(** An entry whose two codes are codes of the chart. *)
Definition resolvido {num : Type} (plano : list Conta) (l : Lancamento num) : Prop :=
  In (conta_debito l) (map codigo plano) /\ In (conta_credito l) (map codigo plano).

(** An action the pages allow on a session whose chart is [plano]: the
    chart is left alone, and the options submitted are options of the
    select boxes. *)
Definition acao_do_formulario {num : Type} (plano : list Conta) (a : Acao num) : Prop :=
  match a with
  | EditaPlano edited => edited = plano
  | IncluiLancamento _ _ conta_debito conta_credito _ =>
      In conta_debito (contas_combo plano) /\ In conta_credito (contas_combo plano)
  | LimpaLancamentos => True
  end.



(* ===================================================================== *)
(** * Facts about the trial balance *)
(* ===================================================================== *)

#[export] Instance Exata_Z : Exata Z.
Proof. split; intros; simpl; lia. Qed.


Section BalanceteFatos.
Context {num : Type} {N : Numero num}.
Implicit Types (bal : list (LinhaTotais num)) (l : Lancamento num).

Lemma cadastro_debita c v (r : LinhaTotais num) : cadastro (debita c v r) = cadastro r.
Proof. unfold debita. destruct (String.eqb _ _); reflexivity. Qed.

Lemma cadastro_credita c v (r : LinhaTotais num) : cadastro (credita c v r) = cadastro r.
Proof. unfold credita. destruct (String.eqb _ _); reflexivity. Qed.

Lemma soma_debito_mascara bal0 bal c v :
  map (@cadastro num) bal = map (@cadastro num) bal0 ->
  soma_debito (mascara bal0 c) v bal = map (debita c v) bal.
Proof.
  revert bal0. induction bal as [|r bal IH]; intros [|r0 bal0] H;
    simpl in H; try discriminate; try reflexivity.
  injection H as Hr Hbal.
  unfold soma_debito, mascara in *. simpl.
  rewrite (IH bal0 Hbal). unfold debita at 2. rewrite Hr. reflexivity.
Qed.

Lemma soma_credito_mascara bal0 bal c v :
  map (@cadastro num) bal = map (@cadastro num) bal0 ->
  soma_credito (mascara bal0 c) v bal = map (credita c v) bal.
Proof.
  revert bal0. induction bal as [|r bal IH]; intros [|r0 bal0] H;
    simpl in H; try discriminate; try reflexivity.
  injection H as Hr Hbal.
  unfold soma_credito, mascara in *. simpl.
  rewrite (IH bal0 Hbal). unfold credita at 2. rewrite Hr. reflexivity.
Qed.

Lemma cadastro_map_debita c v bal :
  map (@cadastro num) (map (debita c v) bal) = map (@cadastro num) bal.
Proof.
  rewrite map_map. apply map_ext. intros; apply cadastro_debita.
Qed.

Lemma cadastro_map_credita c v bal :
  map (@cadastro num) (map (credita c v) bal) = map (@cadastro num) bal.
Proof.
  rewrite map_map. apply map_ext. intros; apply cadastro_credita.
Qed.

(** The loop body, row by row. *)
Lemma lanca_map bal l :
  lanca bal l =
  map (credita (conta_credito l) (valor l)) (map (debita (conta_debito l) (valor l)) bal).
Proof.
  unfold lanca.
  rewrite (@soma_debito_mascara bal bal) by reflexivity.
  apply soma_credito_mascara. apply cadastro_map_debita.
Qed.

Lemma lanca_so_credito_map bal l :
  lanca_so_credito bal l = map (credita (conta_credito l) (valor l)) bal.
Proof. apply soma_credito_mascara. reflexivity. Qed.

Lemma lanca_so_debito_map bal l :
  lanca_so_debito bal l = map (debita (conta_debito l) (valor l)) bal.
Proof. apply soma_debito_mascara. reflexivity. Qed.

Lemma cadastro_lanca bal l : map (@cadastro num) (lanca bal l) = map (@cadastro num) bal.
Proof.
  rewrite lanca_map, cadastro_map_credita, cadastro_map_debita. reflexivity.
Qed.

(** The account columns are those of the chart throughout the loop. *)
Lemma cadastro_acumula lancs bal :
  map (@cadastro num) (acumula bal lancs) = map (@cadastro num) bal.
Proof.
  revert bal. induction lancs as [|l lancs IH]; intros bal; simpl.
  - reflexivity.
  - unfold acumula in *. simpl. rewrite IH. apply cadastro_lanca.
Qed.

Lemma cadastro_inicia plano : map (@cadastro num) (inicia plano) = plano.
Proof.
  unfold inicia. rewrite map_map. simpl. apply map_id.
Qed.

Lemma totais_calcula_saldos (r : LinhaTotais num) : totais (calcula_saldos r) = r.
Proof.
  unfold calcula_saldos. destruct (celula_igual _ _); reflexivity.
Qed.

Lemma totais_balancete plano lancs :
  map (@totais num) (calcula_balancete plano lancs) = acumula (inicia plano) lancs.
Proof.
  unfold calcula_balancete. rewrite map_map.
  erewrite map_ext; [apply map_id|]. intros; apply totais_calcula_saldos.
Qed.

(** The rows of the trial balance are the rows of the chart, in order. *)
Lemma contas_balancete plano lancs :
  map (fun r => cadastro (totais r)) (calcula_balancete plano lancs) = plano.
Proof.
  rewrite <- (map_map (@totais num) (@cadastro num)).
  rewrite totais_balancete, cadastro_acumula. apply cadastro_inicia.
Qed.

(** A code held by no row leaves every row as it is. *)
Lemma debita_ausente c v bal :
  ~ In c (map (fun r => codigo (cadastro r)) bal) -> map (debita c v) bal = bal.
Proof.
  induction bal as [|r bal IH]; simpl; intros H; [reflexivity|].
  rewrite IH by tauto. unfold debita.
  destruct (String.eqb_spec (codigo (cadastro r)) c) as [E|_]; [tauto|reflexivity].
Qed.

Lemma credita_ausente c v bal :
  ~ In c (map (fun r => codigo (cadastro r)) bal) -> map (credita c v) bal = bal.
Proof.
  induction bal as [|r bal IH]; simpl; intros H; [reflexivity|].
  rewrite IH by tauto. unfold credita.
  destruct (String.eqb_spec (codigo (cadastro r)) c) as [E|_]; [tauto|reflexivity].
Qed.

Lemma codigos_acumula plano lancs :
  map (fun r => codigo (cadastro r)) (acumula (inicia (num:=num) plano) lancs)
  = map codigo plano.
Proof.
  rewrite <- (map_map (@cadastro num) codigo).
  rewrite cadastro_acumula, cadastro_inicia. reflexivity.
Qed.
End BalanceteFatos.

Lemma celula_igual_spec (c : celula) (s : string) :
  celula_igual c s = true <-> c = Texto s.
Proof.
  destruct c as [t|]; simpl.
  - rewrite String.eqb_eq. split; [intros ->; reflexivity | intros [= ->]; reflexivity].
  - split; discriminate.
Qed.

Section SaldosFatos.
Context {num : Type} {N : Numero num}.

Lemma calcula_saldos_devedora (row : LinhaTotais num) :
  natureza (cadastro row) = Texto "Devedora" -> formulas_devedora (calcula_saldos row).
Proof.
  intros H. unfold calcula_saldos, formulas_devedora.
  rewrite (proj2 (celula_igual_spec _ _) H). simpl. auto.
Qed.

Lemma calcula_saldos_nao_devedora (row : LinhaTotais num) :
  natureza (cadastro row) <> Texto "Devedora" -> formulas_credora (calcula_saldos row).
Proof.
  intros H. unfold calcula_saldos, formulas_credora.
  destruct (celula_igual (natureza (cadastro row)) "Devedora") eqn:E.
  - apply celula_igual_spec in E. contradiction.
  - simpl. auto.
Qed.

Lemma linha_do_balancete plano (lancs : list (Lancamento num)) r :
  In r (calcula_balancete plano lancs) ->
  r = calcula_saldos (totais r) /\ In (totais r) (acumula (inicia plano) lancs).
Proof.
  unfold calcula_balancete. intros H.
  apply in_map_iff in H. destruct H as (row & <- & Hin).
  rewrite totais_calcula_saldos. auto.
Qed.
End SaldosFatos.

(** ** Sums in an arithmetic without rounding *)

Section SomaExata.
Context {num : Type} {N : Numero num} {E : Exata num}.
Implicit Types (bal : list (LinhaTotais num)) (l : Lancamento num).

Lemma mais_zero_r (a : num) : (a + zero)%num = a.
Proof. rewrite mais_comm. apply mais_zero_l. Qed.

Lemma fold_mais (xs : list num) (a : num) :
  fold_left mais xs a = (a + soma xs)%num.
Proof.
  unfold soma. revert a. induction xs as [|x xs IH]; intros a; simpl.
  - symmetry. apply mais_zero_r.
  - rewrite (IH (a + x)%num), (IH (zero + x)%num).
    rewrite mais_zero_l. symmetry. apply mais_assoc.
Qed.

Lemma soma_cons (x : num) (xs : list num) : soma (x :: xs) = (x + soma xs)%num.
Proof.
  unfold soma at 1. simpl. rewrite fold_mais, mais_zero_l. reflexivity.
Qed.







End SomaExata.

(** ** Each side of the loop runs on its own *)

Section LadosIndependentes.
Context {num : Type} {N : Numero num}.
Implicit Types (bal : list (LinhaTotais num)) (l : Lancamento num).

Lemma Forall2_map_mesmo (R : LinhaTotais num -> LinhaTotais num -> Prop)
    (f g : LinhaTotais num -> LinhaTotais num) bal bal' :
  (forall r r', R r r' -> R (f r) (g r')) ->
  Forall2 R bal bal' -> Forall2 R (map f bal) (map g bal').
Proof.
  intros Hfg H. induction H; simpl; constructor; auto.
Qed.

Lemma Forall2_refl_mesmo (R : LinhaTotais num -> LinhaTotais num -> Prop) bal :
  (forall r, R r r) -> Forall2 R bal bal.
Proof. intros HR. induction bal; constructor; auto. Qed.

Lemma mesmo_debito_passo l (r r' : LinhaTotais num) :
  mesmo_debito r r' ->
  mesmo_debito (credita (conta_credito l) (valor l) (debita (conta_debito l) (valor l) r))
               (credita (conta_credito l) (valor l) (debita (conta_debito l) (valor l) r')).
Proof.
  unfold mesmo_debito, credita, debita. intros [Hc Hd]. rewrite Hc.
  destruct (String.eqb (codigo (cadastro r')) (conta_debito l)); simpl; rewrite ?Hc;
    destruct (String.eqb (codigo (cadastro r')) (conta_credito l)); simpl;
    rewrite ?Hc, ?Hd; auto.
Qed.

Lemma mesmo_credito_passo l (r r' : LinhaTotais num) :
  mesmo_credito r r' ->
  mesmo_credito (credita (conta_credito l) (valor l) (debita (conta_debito l) (valor l) r))
                (credita (conta_credito l) (valor l) (debita (conta_debito l) (valor l) r')).
Proof.
  unfold mesmo_credito, credita, debita. intros [Hc Hd]. rewrite Hc.
  destruct (String.eqb (codigo (cadastro r')) (conta_debito l)); simpl; rewrite ?Hc;
    destruct (String.eqb (codigo (cadastro r')) (conta_credito l)); simpl;
    rewrite ?Hc, ?Hd; auto.
Qed.

Lemma mesmo_debito_acumula lancs bal bal' :
  Forall2 mesmo_debito bal bal' ->
  Forall2 mesmo_debito (acumula bal lancs) (acumula bal' lancs).
Proof.
  revert bal bal'. induction lancs as [|l lancs IH]; intros bal bal' H; [exact H|].
  unfold acumula in *. simpl. apply IH. rewrite !lanca_map, !map_map.
  apply Forall2_map_mesmo; [apply mesmo_debito_passo | exact H].
Qed.

Lemma mesmo_credito_acumula lancs bal bal' :
  Forall2 mesmo_credito bal bal' ->
  Forall2 mesmo_credito (acumula bal lancs) (acumula bal' lancs).
Proof.
  revert bal bal'. induction lancs as [|l lancs IH]; intros bal bal' H; [exact H|].
  unfold acumula in *. simpl. apply IH. rewrite !lanca_map, !map_map.
  apply Forall2_map_mesmo; [apply mesmo_credito_passo | exact H].
Qed.

Lemma mesmo_debito_coluna bal bal' :
  Forall2 mesmo_debito bal bal' -> map (@debito num) bal = map (@debito num) bal'.
Proof.
  intros H. induction H as [|r r' bal bal' [_ Hd] _ IH]; simpl; [reflexivity|].
  rewrite Hd, IH. reflexivity.
Qed.

Lemma mesmo_credito_coluna bal bal' :
  Forall2 mesmo_credito bal bal' -> map (@credito num) bal = map (@credito num) bal'.
Proof.
  intros H. induction H as [|r r' bal bal' [_ Hd] _ IH]; simpl; [reflexivity|].
  rewrite Hd, IH. reflexivity.
Qed.

Lemma mesmo_debito_credita c v bal :
  Forall2 mesmo_debito (map (credita c v) bal) bal.
Proof.
  rewrite <- (map_id bal) at 2. apply Forall2_map_mesmo with (R := mesmo_debito).
  - intros r r' [Hc Hd]. unfold mesmo_debito, credita.
    destruct (String.eqb _ _); simpl; auto.
  - apply Forall2_refl_mesmo. intros r; split; reflexivity.
Qed.

Lemma mesmo_credito_debita c v bal :
  Forall2 mesmo_credito (map (debita c v) bal) bal.
Proof.
  rewrite <- (map_id bal) at 2. apply Forall2_map_mesmo with (R := mesmo_credito).
  - intros r r' [Hc Hd]. unfold mesmo_credito, debita.
    destruct (String.eqb _ _); simpl; auto.
  - apply Forall2_refl_mesmo. intros r; split; reflexivity.
Qed.

Lemma acumula_app bal (antes depois : list (Lancamento num)) :
  acumula bal (antes ++ depois) = acumula (acumula bal antes) depois.
Proof. unfold acumula. apply fold_left_app. Qed.

Lemma acumula_cons bal l lancs : acumula bal (l :: lancs) = acumula (lanca bal l) lancs.
Proof. reflexivity. Qed.

(** An entry whose debit code is held by no row acts as its credit
    statement alone; likewise on the other side. *)
Lemma lanca_debito_ausente bal l :
  ~ In (conta_debito l) (map (fun r => codigo (cadastro r)) bal) ->
  lanca bal l = lanca_so_credito bal l.
Proof.
  intros H. rewrite lanca_map, lanca_so_credito_map, debita_ausente by exact H.
  reflexivity.
Qed.

Lemma lanca_credito_ausente bal l :
  ~ In (conta_credito l) (map (fun r => codigo (cadastro r)) bal) ->
  lanca bal l = lanca_so_debito bal l.
Proof.
  intros H. rewrite lanca_map, lanca_so_debito_map.
  apply credita_ausente.
  rewrite <- (map_map (@cadastro num) codigo), cadastro_map_debita, map_map. exact H.
Qed.
End LadosIndependentes.

(** ** Looking accounts up in a chart with unique codes *)

Lemma pertence_In (c : string) (codigos : list string) :
  pertence c codigos = true <-> In c codigos.
Proof.
  unfold pertence. rewrite existsb_exists. split.
  - intros (x & Hx & Heq). apply String.eqb_eq in Heq. subst. exact Hx.
  - intros H. exists c. split; [exact H | apply String.eqb_refl].
Qed.


Lemma filter_codigo_ausente (plano : list Conta) (c : string) :
  ~ In c (map codigo plano) -> filter (fun a => String.eqb (codigo a) c) plano = [].
Proof.
  induction plano as [|x plano IH]; simpl; intros H; [reflexivity|].
  destruct (String.eqb_spec (codigo x) c) as [Heq|Hne]; [tauto|]. apply IH. tauto.
Qed.

Lemma filter_codigo_unico (plano : list Conta) (a : Conta) :
  NoDup (map codigo plano) -> In a plano ->
  filter (fun x => String.eqb (codigo x) (codigo a)) plano = [a].
Proof.
  induction plano as [|x plano IH]; simpl; intros Hnd Ha; [contradiction|].
  inversion Hnd as [|? ? Hnotin Hnd']; subst.
  destruct (String.eqb_spec (codigo x) (codigo a)) as [Heq|Hne].
  - destruct Ha as [->|Ha].
    + rewrite filter_codigo_ausente by exact Hnotin. reflexivity.
    + exfalso. apply Hnotin. rewrite Heq. apply in_map, Ha.
  - destruct Ha as [->|Ha]; [congruence|]. apply IH; assumption.
Qed.

Lemma loc_grupo_unico (plano : list Conta) (a : Conta) :
  NoDup (map codigo plano) -> In a plano -> loc_grupo plano (codigo a) = Ok (grupo a).
Proof.
  intros Hnd Ha. unfold loc_grupo. rewrite filter_codigo_unico by assumption. reflexivity.
Qed.

Lemma loc_grupo_ausente (plano : list Conta) (c : string) :
  ~ In c (map codigo plano) -> loc_grupo plano c = Levanta (KeyError c).
Proof.
  intros H. unfold loc_grupo. rewrite filter_codigo_ausente by exact H. reflexivity.
Qed.


Lemma conta_do_codigo (plano : list Conta) (c : string) :
  In c (map codigo plano) -> exists a, In a plano /\ codigo a = c.
Proof.
  intros H. apply in_map_iff in H. destruct H as (a & Hc & Ha). exists a. auto.
Qed.

Section FluxoFatos.
Context {num : Type} {N : Numero num}.


Lemma resumo_nil : resumo (@nil (LinhaFluxo num)) = [].
Proof. reflexivity. Qed.


End FluxoFatos.

(* ===================================================================== *)
(** * The trial balance: conservation, signs, unresolved codes *)
(* ===================================================================== *)




(** C2.  Balance sign correctness: in every row of the trial balance, a
    "Devedora" account has [saldo = debito - credito],
    [saldo_devedor = max(saldo, 0)], [saldo_credor = max(-saldo, 0)], and a
    "Credora" account has [saldo = credito - debito],
    [saldo_credor = max(saldo, 0)], [saldo_devedor = max(-saldo, 0)].  With
    totals 100 and 30 the debit-natured row gets 70, 70, 0 and the
    credit-natured row gets -70, 70, 0. *)
Theorem saldos_por_natureza :
  (forall (num : Type) (N : Numero num)
          (plano_contas : list Conta) (lancamentos : list (Lancamento num))
          (r : LinhaBalancete num),
      In r (calcula_balancete plano_contas lancamentos) ->
      (natureza (cadastro (totais r)) = Texto "Devedora" -> formulas_devedora r) /\
      (natureza (cadastro (totais r)) = Texto "Credora" -> formulas_credora r)) /\
  (let r := calcula_saldos (linha_totais (Texto "Devedora") (b64_of_Z 100) (b64_of_Z 30)) in
   saldo r = b64_of_Z 70 /\ saldo_devedor r = b64_of_Z 70 /\ saldo_credor r = b64_of_Z 0) /\
  (let r := calcula_saldos (linha_totais (Texto "Credora") (b64_of_Z 100) (b64_of_Z 30)) in
   saldo r = b64_of_Z (-70) /\ saldo_devedor r = b64_of_Z 70 /\ saldo_credor r = b64_of_Z 0).
Proof.
  split; [|split; vm_compute; auto].
  intros num N plano lancs r Hr.
  destruct (linha_do_balancete _ _ _ Hr) as [Heq _]. split; intros Hnat.
  - rewrite Heq. apply calcula_saldos_devedora. exact Hnat.
  - rewrite Heq. apply calcula_saldos_nao_devedora. rewrite Hnat. discriminate.
Qed.

Lemma saldos_por_natureza_witness :
  let r := calcula_saldos {| cadastro := conta_caixa;
                             debito := b64_of_Z 1000; credito := b64_of_Z 300 |} in
  In r (calcula_balancete init_plano_contas diario_cenario) /\
  formulas_devedora r /\ saldo r = b64_of_Z 700.
Proof.
  intros r.
  assert (Hin : In r (calcula_balancete init_plano_contas diario_cenario))
    by (left; vm_compute; reflexivity).
  split; [exact Hin|]. split; [|vm_compute; reflexivity].
  apply (proj1 (proj1 saldos_por_natureza b64 Numero_b64 _ _ r Hin)). reflexivity.
Defined.

(** C10.  Any [natureza] other than the exact string "Devedora" (another
    string, a misspelling, the empty string, a missing value) gets the
    credit-natured formulas; the string "Devedora" gets the debit-natured
    ones.  With totals 100 and 30, such rows get -70, 70, 0. *)
Theorem natureza_diferente_de_devedora :
  (forall (num : Type) (N : Numero num)
          (plano_contas : list Conta) (lancamentos : list (Lancamento num))
          (r : LinhaBalancete num),
      In r (calcula_balancete plano_contas lancamentos) ->
      (natureza (cadastro (totais r)) <> Texto "Devedora" -> formulas_credora r) /\
      (natureza (cadastro (totais r)) = Texto "Devedora" -> formulas_devedora r)) /\
  (forall nat : celula,
      In nat [Texto "Credora"; Texto "devedora"; Texto "Devedora "; Texto "Debit";
              Texto ""; Nulo] ->
      let r := calcula_saldos (linha_totais nat (b64_of_Z 100) (b64_of_Z 30)) in
      saldo r = b64_of_Z (-70) /\ saldo_devedor r = b64_of_Z 70 /\
      saldo_credor r = b64_of_Z 0).
Proof.
  split.
  - intros num N plano lancs r Hr.
    destruct (linha_do_balancete _ _ _ Hr) as [Heq _]. split; intros Hnat.
    + rewrite Heq. apply calcula_saldos_nao_devedora. exact Hnat.
    + rewrite Heq. apply calcula_saldos_devedora. exact Hnat.
  - intros nat Hnat. simpl in Hnat.
    repeat (destruct Hnat as [<-|Hnat]; [vm_compute; auto|]). contradiction.
Qed.

Lemma natureza_diferente_de_devedora_witness :
  let r := calcula_saldos {| cadastro := conta_receita;
                             debito := b64_of_Z 0; credito := b64_of_Z 1000 |} in
  In r (calcula_balancete init_plano_contas diario_cenario) /\
  formulas_credora r /\ saldo r = b64_of_Z 1000.
Proof.
  intros r.
  assert (Hin : In r (calcula_balancete init_plano_contas diario_cenario))
    by (do 11 right; left; vm_compute; reflexivity).
  split; [exact Hin|]. split; [|vm_compute; reflexivity].
  apply (proj1 (proj1 natureza_diferente_de_devedora b64 Numero_b64 _ _ r Hin)).
  discriminate.
Defined.

Section ColunasFatos.
Context {num : Type} {N : Numero num}.

Lemma coluna_debito_balancete plano (lancs : list (Lancamento num)) :
  coluna_debito (calcula_balancete plano lancs)
  = map (@debito num) (acumula (inicia plano) lancs).
Proof.
  unfold coluna_debito. rewrite <- (map_map (@totais num) (@debito num)).
  rewrite totais_balancete. reflexivity.
Qed.

Lemma coluna_credito_balancete plano (lancs : list (Lancamento num)) :
  coluna_credito (calcula_balancete plano lancs)
  = map (@credito num) (acumula (inicia plano) lancs).
Proof.
  unfold coluna_credito. rewrite <- (map_map (@totais num) (@credito num)).
  rewrite totais_balancete. reflexivity.
Qed.
End ColunasFatos.

(** C9.  Unresolved references in the trial balance: when the debit code
    of an entry matches no row of the chart, the trial balance is the one
    obtained by running, for that entry, the credit statement alone, and
    its [debito] column is that of the journal without the entry; likewise
    with the sides exchanged; when neither code matches, the trial balance
    is that of the journal without the entry.  ([calcula_balancete] is a
    total function: it has no failing case.) *)
Theorem balancete_referencia_ausente :
  forall (num : Type) (N : Numero num) (plano_contas : list Conta)
         (antes depois : list (Lancamento num)) (l : Lancamento num),
    (~ In (conta_debito l) (map codigo plano_contas) ->
       calcula_balancete plano_contas (antes ++ l :: depois)
         = map calcula_saldos
             (acumula (lanca_so_credito (acumula (inicia plano_contas) antes) l) depois) /\
       coluna_debito (calcula_balancete plano_contas (antes ++ l :: depois))
         = coluna_debito (calcula_balancete plano_contas (antes ++ depois))) /\
    (~ In (conta_credito l) (map codigo plano_contas) ->
       calcula_balancete plano_contas (antes ++ l :: depois)
         = map calcula_saldos
             (acumula (lanca_so_debito (acumula (inicia plano_contas) antes) l) depois) /\
       coluna_credito (calcula_balancete plano_contas (antes ++ l :: depois))
         = coluna_credito (calcula_balancete plano_contas (antes ++ depois))) /\
    (~ In (conta_debito l) (map codigo plano_contas) ->
     ~ In (conta_credito l) (map codigo plano_contas) ->
       calcula_balancete plano_contas (antes ++ l :: depois)
         = calcula_balancete plano_contas (antes ++ depois)).
Proof.
  intros num N plano antes depois l.
  pose proof (codigos_acumula (num:=num) plano antes) as Hcod.
  split; [|split].
  - intros Hd. split.
    + unfold calcula_balancete.
      rewrite acumula_app, acumula_cons, lanca_debito_ausente; [reflexivity|].
      rewrite Hcod. exact Hd.
    + rewrite !coluna_debito_balancete, !acumula_app, acumula_cons.
      apply mesmo_debito_coluna, mesmo_debito_acumula.
      rewrite lanca_map, debita_ausente by (rewrite Hcod; exact Hd).
      apply mesmo_debito_credita.
  - intros Hc. split.
    + unfold calcula_balancete.
      rewrite acumula_app, acumula_cons, lanca_credito_ausente; [reflexivity|].
      rewrite Hcod. exact Hc.
    + rewrite !coluna_credito_balancete, !acumula_app, acumula_cons.
      apply mesmo_credito_coluna, mesmo_credito_acumula.
      rewrite lanca_credito_ausente by (rewrite Hcod; exact Hc).
      rewrite lanca_so_debito_map. apply mesmo_credito_debita.
  - intros Hd Hc. unfold calcula_balancete.
    rewrite !acumula_app, acumula_cons. do 2 f_equal.
    rewrite lanca_map, debita_ausente by (rewrite Hcod; exact Hd).
    apply credita_ausente. rewrite Hcod. exact Hc.
Qed.

Lemma codigo_999_ausente : ~ In "9.9.9" (map codigo init_plano_contas).
Proof.
  intros H. simpl in H.
  repeat (destruct H as [H|H]; [discriminate H|]). exact H.
Qed.

Lemma balancete_referencia_ausente_witness :
  let antes := [lancamento "1.1.1" "3.1.1" (b64_of_Z 1000)] in
  let l := lancamento "1.1.1" "9.9.9" (b64_of_Z 100) in
  let depois := [lancamento "4.1.2" "1.1.1" (b64_of_Z 300)] in
  ~ In (conta_credito l) (map codigo init_plano_contas) /\
  coluna_credito (calcula_balancete init_plano_contas (antes ++ l :: depois))
    = coluna_credito (calcula_balancete init_plano_contas (antes ++ depois)).
Proof.
  intros antes l depois. split; [exact codigo_999_ausente|].
  apply (proj1 (proj2 (@balancete_referencia_ausente b64 Numero_b64 init_plano_contas
                         antes depois l))).
  exact codigo_999_ausente.
Defined.

(* ===================================================================== *)
(** * The statements derived from the trial balance *)
(* ===================================================================== *)


Section BalancoFatos.
Context {num : Type} {N : Numero num}.

Lemma codigo_conta_valor_com_valor (coluna : LinhaBalancete num -> num)
    (frame : list (LinhaBalancete num)) :
  codigo_conta_valor (com_valor coluna frame)
  = map (fun r => (codigo (cadastro (totais r)), conta (cadastro (totais r)), coluna r))
        frame.
Proof.
  unfold codigo_conta_valor, com_valor. rewrite map_map. reflexivity.
Qed.

(** The accounts of a bucket are the accounts of the chart in the group. *)
Lemma contas_do_grupo g plano (lancs : list (Lancamento num))
      (coluna : LinhaBalancete num -> num) :
  map (fun t : string * string * num => (fst (fst t), snd (fst t)))
      (codigo_conta_valor
         (com_valor coluna (do_grupo g (calcula_balancete plano lancs))))
  = map (fun a => (codigo a, conta a))
        (filter (fun a => String.eqb (grupo a) g) plano).
Proof.
  rewrite codigo_conta_valor_com_valor, map_map. simpl.
  rewrite <- (contas_balancete plano lancs) at 2.
  rewrite filter_map_swap, map_map. reflexivity.
Qed.
End BalancoFatos.

(** C8.  Balance sheet: the three buckets hold the rows of group "Ativo",
    "Passivo" and "Patrimônio Líquido", in order, each as
    [(codigo, conta, valor)] with [valor = saldo_devedor] for assets and
    [valor = saldo_credor] for liabilities and equity; the selection is by
    group alone, so a row of the group appears whatever its balance, and on
    a trial balance computed from a chart every chart row of the group
    appears. *)
Theorem balanco_postcondicao :
  forall (num : Type) (N : Numero num),
    (forall balancete : list (LinhaBalancete num),
       let bucket g coluna :=
         map (fun r => (codigo (cadastro (totais r)), conta (cadastro (totais r)), coluna r))
             (filter (fun r => String.eqb (grupo (cadastro (totais r))) g) balancete) in
       ativo (calcula_balanco balancete) = bucket "Ativo" (@saldo_devedor num) /\
       passivo (calcula_balanco balancete) = bucket "Passivo" (@saldo_credor num) /\
       pl (calcula_balanco balancete) = bucket "Patrimônio Líquido" (@saldo_credor num)) /\
    (forall (balancete : list (LinhaBalancete num)) (r : LinhaBalancete num),
       In r balancete ->
       let linha coluna :=
         (codigo (cadastro (totais r)), conta (cadastro (totais r)), coluna r) in
       (grupo (cadastro (totais r)) = "Ativo" ->
          In (linha (@saldo_devedor num)) (ativo (calcula_balanco balancete))) /\
       (grupo (cadastro (totais r)) = "Passivo" ->
          In (linha (@saldo_credor num)) (passivo (calcula_balanco balancete))) /\
       (grupo (cadastro (totais r)) = "Patrimônio Líquido" ->
          In (linha (@saldo_credor num)) (pl (calcula_balanco balancete)))) /\
    (forall (plano_contas : list Conta) (lancamentos : list (Lancamento num)),
       let bp := calcula_balanco (calcula_balancete plano_contas lancamentos) in
       let contas (bucket : list (string * string * num)) :=
         map (fun t : string * string * num => (fst (fst t), snd (fst t))) bucket in
       let do_plano g :=
         map (fun a => (codigo a, conta a))
             (filter (fun a => String.eqb (grupo a) g) plano_contas) in
       contas (ativo bp) = do_plano "Ativo" /\
       contas (passivo bp) = do_plano "Passivo" /\
       contas (pl bp) = do_plano "Patrimônio Líquido").
Proof.
  intros num N. split; [|split].
  - intros balancete bucket. unfold calcula_balanco. simpl.
    rewrite !codigo_conta_valor_com_valor. auto.
  - intros balancete r Hr linha. unfold calcula_balanco. simpl.
    rewrite !codigo_conta_valor_com_valor.
    repeat split; intros Hg;
      apply (in_map (fun r => (codigo (cadastro (totais r)),
                               conta (cadastro (totais r)), _ r)));
      apply filter_In; (split; [exact Hr | rewrite Hg; reflexivity]).
  - intros plano lancs bp contas do_plano. unfold bp, calcula_balanco. simpl.
    unfold contas, do_plano. rewrite !contas_do_grupo. auto.
Qed.

Lemma balanco_postcondicao_witness :
  let balancete := calcula_balancete init_plano_contas diario_cenario in
  let bancos :=
    {| codigo := "1.1.2"; conta := "Bancos Conta Movimento"; grupo := "Ativo";
       natureza := Texto "Devedora"; eh_caixa := true |} in
  let r := calcula_saldos {| cadastro := bancos;
                             debito := b64_of_Z 0; credito := b64_of_Z 0 |} in
  In r balancete /\
  In ("1.1.2", "Bancos Conta Movimento", saldo_devedor r)
     (ativo (calcula_balanco balancete)) /\
  saldo_devedor r = b64_of_Z 0.
Proof.
  intros balancete bancos r.
  assert (Hin : In r balancete) by (right; left; vm_compute; reflexivity).
  split; [exact Hin|]. split; [|vm_compute; reflexivity].
  apply (proj1 (proj1 (proj2 (@balanco_postcondicao b64 Numero_b64)) balancete r Hin)).
  reflexivity.
Defined.

(* ===================================================================== *)
(** * The cash-flow statements *)
(* ===================================================================== *)


Lemma init_plano_contas_NoDup : NoDup (map codigo init_plano_contas).
Proof.
  simpl.
  repeat (constructor;
          [ simpl; intros H; repeat (destruct H as [H|H]; [discriminate H|]); exact H | ]).
  constructor.
Qed.



(** The whole pipeline on the cash sale of 1000.0 and the wages of 300.0:
    net income 700.0, one inflow and one outflow row, operating cash and
    cash variation both 700.0. *)
Example cenario_do_periodo :
  let balancete := calcula_balancete init_plano_contas diario_cenario in
  let lucro := snd (calcula_dre balancete) in
  lucro = b64_of_Z 700 /\
  calcula_fluxo_caixa_direto init_plano_contas diario_cenario
    = Ok (quadro
            [ {| tipo := "Entrada de Caixa"; grupo_contraparte := "Resultado - Receita";
                 entrada := b64_of_Z 1000; saida := b64_of_Z 0 |};
              {| tipo := "Saída de Caixa"; grupo_contraparte := "Resultado - Despesa";
                 entrada := b64_of_Z 0; saida := b64_of_Z 300 |} ]) /\
  (forall fluxo_direto,
     calcula_fluxo_caixa_direto init_plano_contas diario_cenario = Ok fluxo_direto ->
     map snd (fst (calcula_fluxo_caixa_indireto balancete fluxo_direto lucro))
     = [ b64_of_Z 700; b64_of_Z 0; b64_of_Z 700; b64_of_Z 700 ]).
Proof.
  split; [vm_compute; reflexivity|]. split; [vm_compute; reflexivity|].
  intros fluxo_direto H. vm_compute in H. injection H as <-. vm_compute. reflexivity.
Qed.

(* ===================================================================== *)
(** * Where the engine raises, and where it writes to an argument *)
(* ===================================================================== *)

Section DiretoLevanta.
Context {num : Type} {N : Numero num}.

(** A cash receipt whose credit code is absent from the chart makes the
    lookup of the counterpart's group raise; likewise a cash payment
    whose debit code is absent. *)
Lemma classifica_keyerror_credito plano (l : Lancamento num) :
  In (conta_debito l) (contas_caixa plano) ->
  ~ In (conta_credito l) (map codigo plano) ->
  classifica plano (contas_caixa plano) l = Levanta (KeyError (conta_credito l)).
Proof.
  intros Hd Hc. unfold classifica.
  rewrite (proj2 (pertence_In _ _) Hd).
  destruct (pertence (conta_credito l) (contas_caixa plano)) eqn:Hp.
  - exfalso. apply Hc. apply pertence_In in Hp. unfold contas_caixa in Hp.
    apply in_map_iff in Hp. destruct Hp as (a & Ha & Hin).
    apply filter_In in Hin. rewrite <- Ha. apply in_map. tauto.
  - simpl. rewrite loc_grupo_ausente by exact Hc. reflexivity.
Qed.

Lemma direto_keyerror_credito plano (l : Lancamento num) depois :
  In (conta_debito l) (contas_caixa plano) ->
  ~ In (conta_credito l) (map codigo plano) ->
  calcula_fluxo_caixa_direto plano (l :: depois)
  = Levanta (KeyError (conta_credito l)).
Proof.
  intros Hd Hc. unfold calcula_fluxo_caixa_direto. simpl.
  rewrite classifica_keyerror_credito by assumption. reflexivity.
Qed.

(** With a report that has rows, the function leaves the caller's frame
    with a [saldo] column. *)
Lemma indireto_estado_final balancete (fluxo_direto : QuadroFluxo num) lucro_liquido :
  linhas_fluxo fluxo_direto <> [] ->
  snd (calcula_fluxo_caixa_indireto balancete fluxo_direto lucro_liquido)
  = atribui_saldo fluxo_direto.
Proof.
  intros H. unfold calcula_fluxo_caixa_indireto, vazio.
  destruct (linhas_fluxo fluxo_direto); [contradiction|reflexivity].
Qed.

Lemma indireto_estado_final_vazio balancete (fluxo_direto : QuadroFluxo num)
      lucro_liquido :
  linhas_fluxo fluxo_direto = [] ->
  snd (calcula_fluxo_caixa_indireto balancete fluxo_direto lucro_liquido)
  = fluxo_direto.
Proof.
  intros H. unfold calcula_fluxo_caixa_indireto, vazio. rewrite H. reflexivity.
Qed.
End DiretoLevanta.

(** On an empty chart and an empty journal every function returns, with
    empty tables and zero totals. *)
Lemma entradas_vazias (num : Type) (N : Numero num) (lucro_liquido : num) :
  calcula_balancete [] (@nil (Lancamento num)) = [] /\
  calcula_dre (@nil (LinhaBalancete num))
    = ([ ("Receitas", "", zero);
         ("(-) Despesas", "", (- zero)%num);
         ("= Lucro / Prejuízo do Período", "", (zero - zero)%num) ],
       (zero - zero)%num) /\
  calcula_balanco (@nil (LinhaBalancete num))
    = {| ativo := []; passivo := []; pl := [] |} /\
  calcula_fluxo_caixa_direto [] (@nil (Lancamento num)) = Ok (quadro []) /\
  calcula_fluxo_caixa_indireto [] (quadro []) lucro_liquido
    = ([ ("Lucro / Prejuízo do Período", lucro_liquido);
         ("(+/-) Ajustes no capital de giro (simplificado)", (zero - lucro_liquido)%num);
         ("= Caixa líquido das atividades operacionais", zero);
         ("Variação de Caixa no Período", zero) ],
       quadro []).
Proof. repeat split. Qed.

(** C3.  On the default chart, a cash receipt whose credit code 9.9.9 is
    not in the chart makes [calcula_fluxo_caixa_direto] raise [KeyError],
    where [calcula_balancete] on the same input returns a trial balance. *)
Theorem direto_conta_ausente_levanta :
  ~ In "9.9.9" (map codigo init_plano_contas) /\
  calcula_fluxo_caixa_direto init_plano_contas diario_conta_ausente
    = Levanta (KeyError "9.9.9") /\
  coluna_debito (calcula_balancete init_plano_contas diario_conta_ausente)
    = b64_of_Z 100 :: repeat (b64_of_Z 0) 16 /\
  coluna_credito (calcula_balancete init_plano_contas diario_conta_ausente)
    = repeat (b64_of_Z 0) 17.
Proof.
  split; [exact codigo_999_ausente|].
  repeat split; vm_compute; reflexivity.
Qed.

(** C4.  Given the report that [calcula_fluxo_caixa_direto] returns for a
    cash sale, [calcula_fluxo_caixa_indireto] leaves that argument with a
    column [saldo] it did not have: the argument is not what it was before
    the call. *)
Theorem indireto_altera_fluxo_direto :
  calcula_fluxo_caixa_direto init_plano_contas diario_venda_a_vista
    = Ok fluxo_uma_entrada /\
  (let balancete := calcula_balancete init_plano_contas diario_venda_a_vista in
   let lucro_liquido := snd (calcula_dre balancete) in
   coluna_saldo fluxo_uma_entrada = None /\
   snd (calcula_fluxo_caixa_indireto balancete fluxo_uma_entrada lucro_liquido)
     = {| linhas_fluxo := linhas_fluxo fluxo_uma_entrada;
          coluna_saldo := Some [b64_of_Z 1000] |} /\
   snd (calcula_fluxo_caixa_indireto balancete fluxo_uma_entrada lucro_liquido)
     <> fluxo_uma_entrada).
Proof.
  split; [vm_compute; reflexivity|].
  split; [reflexivity|]. split; [vm_compute; reflexivity|].
  vm_compute. discriminate.
Qed.

(* ===================================================================== *)
(** * More on the trial balance *)
(* ===================================================================== *)

Section BalancetePorLinha.
Context {num : Type} {N : Numero num}.

(** The loop over the journal treats every row apart. *)
Lemma acumula_por_linha (lancs : list (Lancamento num)) (bal : list (LinhaTotais num)) :
  acumula bal lancs = map (fun r => fold_left lanca_linha lancs r) bal.
Proof.
  revert bal. induction lancs as [|l lancs IH]; intros bal.
  - simpl. symmetry. apply map_id.
  - rewrite acumula_cons, IH, lanca_map, !map_map. reflexivity.
Qed.

Lemma cadastro_lanca_linha (r : LinhaTotais num) (l : Lancamento num) :
  cadastro (lanca_linha r l) = cadastro r.
Proof.
  unfold lanca_linha. rewrite cadastro_credita, cadastro_debita. reflexivity.
Qed.

Lemma debito_lanca_linha (r : LinhaTotais num) (l : Lancamento num) :
  debito (lanca_linha r l)
  = if String.eqb (codigo (cadastro r)) (conta_debito l)
    then (debito r + valor l)%num else debito r.
Proof.
  unfold lanca_linha, credita, debita.
  destruct (String.eqb (codigo (cadastro r)) (conta_debito l)); simpl;
    destruct (String.eqb (codigo (cadastro r)) (conta_credito l)); reflexivity.
Qed.

Lemma credito_lanca_linha (r : LinhaTotais num) (l : Lancamento num) :
  credito (lanca_linha r l)
  = if String.eqb (codigo (cadastro r)) (conta_credito l)
    then (credito r + valor l)%num else credito r.
Proof.
  unfold lanca_linha, credita, debita.
  destruct (String.eqb (codigo (cadastro r)) (conta_debito l)); simpl;
    destruct (String.eqb (codigo (cadastro r)) (conta_credito l)); reflexivity.
Qed.

Lemma linha_acumulada (lancs : list (Lancamento num)) (r : LinhaTotais num) :
  fold_left lanca_linha lancs r
  = {| cadastro := cadastro r;
       debito :=
         fold_left mais
           (map (@valor num)
              (filter (fun l => String.eqb (codigo (cadastro r)) (conta_debito l)) lancs))
           (debito r);
       credito :=
         fold_left mais
           (map (@valor num)
              (filter (fun l => String.eqb (codigo (cadastro r)) (conta_credito l)) lancs))
           (credito r) |}.
Proof.
  revert r. induction lancs as [|l lancs IH]; intros r; simpl.
  - destruct r; reflexivity.
  - rewrite IH, cadastro_lanca_linha, debito_lanca_linha, credito_lanca_linha.
    destruct (String.eqb (codigo (cadastro r)) (conta_debito l));
      destruct (String.eqb (codigo (cadastro r)) (conta_credito l)); reflexivity.
Qed.

Lemma balancete_por_conta (plano : list Conta) (lancs : list (Lancamento num)) :
  calcula_balancete plano lancs
  = map (fun a => calcula_saldos (totais_da_conta lancs a)) plano.
Proof.
  unfold calcula_balancete, inicia.
  rewrite acumula_por_linha, !map_map. apply map_ext. intros a.
  rewrite linha_acumulada. reflexivity.
Qed.

(** An entry that names the code of an account on neither side is
    immaterial to the account's totals, wherever it stands in the journal. *)
Lemma totais_da_conta_alheia (a : Conta) (antes depois : list (Lancamento num))
      (l : Lancamento num) :
  codigo a <> conta_debito l -> codigo a <> conta_credito l ->
  totais_da_conta (antes ++ l :: depois) a = totais_da_conta (antes ++ depois) a.
Proof.
  intros Hd Hc. unfold totais_da_conta. rewrite !filter_app. simpl.
  destruct (String.eqb_spec (codigo a) (conta_debito l)); [contradiction|].
  destruct (String.eqb_spec (codigo a) (conta_credito l)); [contradiction|].
  reflexivity.
Qed.

(** The rows of a group, from the rows of the chart in the group. *)
Lemma do_grupo_balancete (g : string) (plano : list Conta) (lancs : list (Lancamento num)) :
  do_grupo g (calcula_balancete plano lancs)
  = map (fun a => calcula_saldos (totais_da_conta lancs a))
        (filter (fun a => String.eqb (grupo a) g) plano).
Proof.
  rewrite balancete_por_conta. unfold do_grupo. rewrite filter_map_swap.
  f_equal. apply filter_ext. intros a. rewrite totais_calcula_saldos. reflexivity.
Qed.
End BalancetePorLinha.

(** X1.  The trial balance in closed form: one row per row of the chart,
    in the order of the chart, whose [debito] is the sum, in journal order,
    of the amounts of the entries whose debit code is the row's code, and
    whose [credito] is the same for the credit code.  A row's totals do not
    depend on the other rows, and rows sharing a code get the same totals. *)
Theorem balancete_forma_fechada :
  forall (num : Type) (N : Numero num)
         (plano_contas : list Conta) (lancamentos : list (Lancamento num)),
    calcula_balancete plano_contas lancamentos
    = map (fun a => calcula_saldos (totais_da_conta lancamentos a)) plano_contas /\
    map (fun r => cadastro (totais r)) (calcula_balancete plano_contas lancamentos)
    = plano_contas.
Proof.
  intros num N plano lancs. split.
  - apply balancete_por_conta.
  - apply contas_balancete.
Qed.

Section BalanceteLancamentoNovo.
Context {num : Type} {N : Numero num}.

Lemma Forall2_map_map (A B C : Type) (R : B -> C -> Prop) (f : A -> B) (g : A -> C)
      (xs : list A) :
  (forall x, In x xs -> R (f x) (g x)) -> Forall2 R (map f xs) (map g xs).
Proof.
  induction xs as [|x xs IH]; intros H; simpl; constructor.
  - apply H. left. reflexivity.
  - apply IH. intros y Hy. apply H. right. exact Hy.
Qed.

Lemma calcula_saldos_lanca_linha_alheia (r : LinhaTotais num) (l : Lancamento num) :
  codigo (cadastro r) <> conta_debito l ->
  codigo (cadastro r) <> conta_credito l ->
  lanca_linha r l = r.
Proof.
  intros Hd Hc. unfold lanca_linha, credita, debita.
  destruct (String.eqb_spec (codigo (cadastro r)) (conta_debito l)); [contradiction|].
  destruct (String.eqb_spec (codigo (cadastro r)) (conta_credito l)); [contradiction|].
  reflexivity.
Qed.
End BalanceteLancamentoNovo.

(** X2.  One more entry at the end of the journal: row by row, the new
    trial balance has the account of the old one; the rows whose code is
    the entry's debit code have their [debito] raised by the amount, the
    rows whose code is its credit code have their [credito] raised by the
    amount, and every row with another code is the row of the old trial
    balance. *)
Theorem balancete_lancamento_a_mais :
  forall (num : Type) (N : Numero num)
         (plano_contas : list Conta) (lancamentos : list (Lancamento num))
         (l : Lancamento num),
    Forall2
      (fun antes depois : LinhaBalancete num =>
         let cod := codigo (cadastro (totais antes)) in
         cadastro (totais depois) = cadastro (totais antes) /\
         debito (totais depois)
           = (if String.eqb cod (conta_debito l)
              then (debito (totais antes) + valor l)%num else debito (totais antes)) /\
         credito (totais depois)
           = (if String.eqb cod (conta_credito l)
              then (credito (totais antes) + valor l)%num else credito (totais antes)) /\
         (cod <> conta_debito l -> cod <> conta_credito l -> depois = antes))
      (calcula_balancete plano_contas lancamentos)
      (calcula_balancete plano_contas (lancamentos ++ [l])).
Proof.
  intros num N plano lancs l. unfold calcula_balancete.
  rewrite acumula_app, acumula_cons. simpl. rewrite lanca_map, !map_map.
  apply Forall2_map_map. intros r _. fold (lanca_linha r l).
  rewrite !totais_calcula_saldos.
  rewrite cadastro_lanca_linha, debito_lanca_linha, credito_lanca_linha.
  repeat split.
  intros Hd Hc. rewrite calcula_saldos_lanca_linha_alheia by assumption. reflexivity.
Qed.

(** X3.  An entry that names no revenue and no expense account, on either
    side, leaves the income statement and the net income as they are,
    wherever it stands in the journal. *)
Theorem dre_ignora_lancamento_patrimonial :
  forall (num : Type) (N : Numero num) (plano_contas : list Conta)
         (antes depois : list (Lancamento num)) (l : Lancamento num),
    (forall a, In a plano_contas ->
       grupo a = "Resultado - Receita" \/ grupo a = "Resultado - Despesa" ->
       codigo a <> conta_debito l /\ codigo a <> conta_credito l) ->
    calcula_dre (calcula_balancete plano_contas (antes ++ l :: depois))
    = calcula_dre (calcula_balancete plano_contas (antes ++ depois)).
Proof.
  intros num N plano antes depois l H.
  assert (Hg : forall g, g = "Resultado - Receita" \/ g = "Resultado - Despesa" ->
                do_grupo g (calcula_balancete plano (antes ++ l :: depois))
                = do_grupo g (calcula_balancete plano (antes ++ depois))).
  { intros g Hgrupo. rewrite !do_grupo_balancete. apply map_ext_in.
    intros a Ha. apply filter_In in Ha. destruct Ha as [Ha Hga].
    apply String.eqb_eq in Hga. rewrite <- Hga in Hgrupo.
    destruct (H a Ha Hgrupo) as [Hd Hc].
    rewrite totais_da_conta_alheia by assumption. reflexivity. }
  unfold calcula_dre. rewrite (Hg _ (or_introl eq_refl)), (Hg _ (or_intror eq_refl)).
  reflexivity.
Qed.

Lemma dre_ignora_lancamento_patrimonial_witness :
  let aporte := lancamento "1.1.2" "2.3.1" (b64_of_Z 5000) in
  calcula_dre (calcula_balancete init_plano_contas
                 ([lancamento "1.1.1" "3.1.1" (b64_of_Z 1000)] ++
                  aporte :: [lancamento "4.1.2" "1.1.1" (b64_of_Z 300)]))
  = calcula_dre (calcula_balancete init_plano_contas diario_cenario).
Proof.
  intros aporte.
  apply (@dre_ignora_lancamento_patrimonial b64 Numero_b64 init_plano_contas
           [lancamento "1.1.1" "3.1.1" (b64_of_Z 1000)]
           [lancamento "4.1.2" "1.1.1" (b64_of_Z 300)] aporte).
  intros a Ha Hg. simpl in Ha.
  repeat (destruct Ha as [<-|Ha];
          [simpl in *; split; intros Habs; destruct Hg; discriminate|]).
  contradiction.
Defined.

(** ** Integer amounts *)







(* ===================================================================== *)
(** * More on the direct-method report *)
(* ===================================================================== *)

Unset Implicit Arguments.

Lemma loc_grupo_presente (plano : list Conta) (c : string) :
  NoDup (map codigo plano) -> In c (map codigo plano) ->
  exists a, In a plano /\ codigo a = c /\ loc_grupo plano c = Ok (grupo a).
Proof.
  intros Hnd Hc. destruct (conta_do_codigo _ _ Hc) as (a & Ha & Hca).
  exists a. repeat split; try assumption.
  rewrite <- Hca. apply loc_grupo_unico; assumption.
Qed.

Lemma contas_caixa_no_plano (plano : list Conta) (c : string) :
  In c (contas_caixa plano) -> In c (map codigo plano).
Proof.
  unfold contas_caixa. intros H. apply in_map_iff in H.
  destruct H as (a & Ha & Hin). apply filter_In in Hin.
  rewrite <- Ha. apply in_map. tauto.
Qed.

Lemma pertence_false (c : string) (codigos : list string) :
  pertence c codigos = false <-> ~ In c codigos.
Proof.
  rewrite <- pertence_In. destruct (pertence c codigos); split; congruence.
Qed.

Section DiretoErros.
Context {num : Type} {N : Numero num}.

(** When the loop body raises, and what. *)
Lemma classifica_casos (plano : list Conta) (l : Lancamento num) :
  NoDup (map codigo plano) ->
  (classificavel plano l /\ exists novas, classifica plano (contas_caixa plano) l = Ok novas) \/
  (~ classificavel plano l /\
   exists c, classifica plano (contas_caixa plano) l = Levanta (KeyError c) /\
             ~ In c (map codigo plano) /\ (c = conta_debito l \/ c = conta_credito l)).
Proof.
  intros Hnd. unfold classifica, classificavel.
  destruct (pertence (conta_debito l) (contas_caixa plano)) eqn:Hd;
    destruct (pertence (conta_credito l) (contas_caixa plano)) eqn:Hc; simpl;
    [ apply (proj1 (pertence_In _ _)) in Hd; apply (proj1 (pertence_In _ _)) in Hc
    | apply (proj1 (pertence_In _ _)) in Hd; apply (proj1 (pertence_false _ _)) in Hc
    | apply (proj1 (pertence_false _ _)) in Hd; apply (proj1 (pertence_In _ _)) in Hc
    | apply (proj1 (pertence_false _ _)) in Hd; apply (proj1 (pertence_false _ _)) in Hc ].
  - left. split; [tauto | eauto].
  - destruct (in_dec string_dec (conta_credito l) (map codigo plano)) as [Hin|Hout].
    + left. split; [tauto|].
      destruct (loc_grupo_presente plano _ Hnd Hin) as (a & _ & _ & ->). simpl. eauto.
    + right. split; [tauto|]. exists (conta_credito l).
      rewrite loc_grupo_ausente by exact Hout. simpl. auto.
  - destruct (in_dec string_dec (conta_debito l) (map codigo plano)) as [Hin|Hout].
    + left. split; [tauto|].
      destruct (loc_grupo_presente plano _ Hnd Hin) as (a & _ & _ & ->). simpl. eauto.
    + right. split; [tauto|]. exists (conta_debito l).
      rewrite loc_grupo_ausente by exact Hout. simpl. auto.
  - left. split; [tauto | eauto].
Qed.

Lemma percorre_app (plano : list Conta) (cc : list string)
      (xs ys : list (Lancamento num)) (linhas : list (LinhaFluxo num)) :
  percorre plano cc (xs ++ ys) linhas
  = (meio <- percorre plano cc xs linhas ;; percorre plano cc ys meio).
Proof.
  revert linhas. induction xs as [|x xs IH]; intros linhas; simpl; [reflexivity|].
  destruct (classifica plano cc x) as [novas|e]; simpl; [apply IH | reflexivity].
Qed.

Lemma percorre_casos (plano : list Conta) (lancs : list (Lancamento num))
      (linhas : list (LinhaFluxo num)) :
  NoDup (map codigo plano) ->
  (Forall (classificavel plano) lancs /\
   exists todas, percorre plano (contas_caixa plano) lancs linhas = Ok todas) \/
  (~ Forall (classificavel plano) lancs /\
   exists c l, percorre plano (contas_caixa plano) lancs linhas = Levanta (KeyError c) /\
               ~ In c (map codigo plano) /\ In l lancs /\
               (c = conta_debito l \/ c = conta_credito l)).
Proof.
  intros Hnd. revert linhas. induction lancs as [|l lancs IH]; intros linhas; simpl.
  - left. split; [constructor | eauto].
  - destruct (classifica_casos plano l Hnd) as [[Hcl (novas & ->)] | [Hncl (c & -> & Hc & Hlado)]];
      simpl.
    + destruct (IH (linhas ++ novas)%list)
        as [[Hall (todas & ->)] | [Hnall (c & l' & -> & Hc & Hl' & Hlado)]].
      * left. split; [constructor; assumption | eauto].
      * right. split.
        { intros Hall. inversion Hall; subst. contradiction. }
        exists c, l'. auto.
    + right. split.
      { intros Hall. inversion Hall; subst. contradiction. }
      exists c, l. auto.
Qed.

Lemma direto_percorre (plano : list Conta) (lancs : list (Lancamento num)) :
  calcula_fluxo_caixa_direto plano lancs
  = (linhas <- percorre plano (contas_caixa plano) lancs [] ;; Ok (quadro (resumo linhas))).
Proof.
  unfold calcula_fluxo_caixa_direto. destruct lancs as [|l lancs]; [reflexivity|].
  destruct (percorre plano (contas_caixa plano) (l :: lancs) []) as [linhas|e];
    simpl; [|reflexivity].
  destruct linhas; reflexivity.
Qed.
End DiretoErros.

(** X6.  On a chart with unique codes, [calcula_fluxo_caixa_direto]
    returns a report exactly when, in every entry with a cash code on one
    side and a non-cash code on the other, the non-cash code is a code of
    the chart; otherwise it raises [KeyError] with a code of the journal
    that the chart does not have.  A code missing from the chart is thus
    tolerated on an entry whose other side is not cash. *)
Theorem direto_retorna_sse_classificavel :
  forall (num : Type) (N : Numero num)
         (plano_contas : list Conta) (lancamentos : list (Lancamento num)),
    NoDup (map codigo plano_contas) ->
    ((exists fluxo_direto,
         calcula_fluxo_caixa_direto plano_contas lancamentos = Ok fluxo_direto)
     <-> Forall (classificavel plano_contas) lancamentos) /\
    (forall e, calcula_fluxo_caixa_direto plano_contas lancamentos = Levanta e ->
       exists c l, e = KeyError c /\ ~ In c (map codigo plano_contas) /\
                   In l lancamentos /\ (c = conta_debito l \/ c = conta_credito l)).
Proof.
  intros num N plano lancs Hnd. rewrite direto_percorre.
  destruct (percorre_casos plano lancs [] Hnd)
    as [[Hall (todas & ->)] | [Hnall (c & l & -> & Hc & Hl & Hlado)]]; simpl.
  - split; [split; eauto | discriminate].
  - split.
    + split; [intros (fd & Habs); discriminate | contradiction].
    + intros e [= <-]. exists c, l. auto.
Qed.

Lemma direto_retorna_sse_classificavel_witness :
  exists fluxo_direto : QuadroFluxo b64,
    calcula_fluxo_caixa_direto init_plano_contas
      [lancamento "1.1.3" "9.9.9" (b64_of_Z 100)] = Ok fluxo_direto.
Proof.
  apply (proj1 (@direto_retorna_sse_classificavel b64 Numero_b64 init_plano_contas
                  [lancamento "1.1.3" "9.9.9" (b64_of_Z 100)] init_plano_contas_NoDup)).
  constructor; [|constructor]. split; simpl; intros H.
  - repeat (destruct H as [H|H]; [discriminate H|]). contradiction.
  - repeat (destruct H as [H|H]; [discriminate H|]). contradiction.
Defined.

Section DiretoInvisiveis.
Context {num : Type} {N : Numero num}.

Lemma classifica_mesmo_lado (plano : list Conta) (cc : list string) (l : Lancamento num) :
  pertence (conta_debito l) cc = pertence (conta_credito l) cc ->
  classifica plano cc l = Ok [].
Proof.
  intros H. unfold classifica. rewrite H.
  destruct (pertence (conta_credito l) cc); reflexivity.
Qed.

Lemma percorre_sem_o_lancamento (plano : list Conta) (cc : list string)
      (antes depois : list (Lancamento num)) (l : Lancamento num)
      (linhas : list (LinhaFluxo num)) :
  pertence (conta_debito l) cc = pertence (conta_credito l) cc ->
  percorre plano cc (antes ++ l :: depois) linhas
  = percorre plano cc (antes ++ depois) linhas.
Proof.
  intros H. rewrite !percorre_app.
  destruct (percorre plano cc antes linhas) as [meio|e]; simpl; [|reflexivity].
  rewrite classifica_mesmo_lado by exact H. simpl. rewrite app_nil_r. reflexivity.
Qed.
End DiretoInvisiveis.

(** X7.  An entry between two cash accounts, or between two accounts that
    are not cash, is invisible to the direct method: with or without it,
    wherever it stands in the journal, [calcula_fluxo_caixa_direto] gives
    the same report or raises the same exception. *)
Theorem direto_ignora_lancamento_sem_fluxo :
  forall (num : Type) (N : Numero num) (plano_contas : list Conta)
         (antes depois : list (Lancamento num)) (l : Lancamento num),
    pertence (conta_debito l) (contas_caixa plano_contas)
      = pertence (conta_credito l) (contas_caixa plano_contas) ->
    calcula_fluxo_caixa_direto plano_contas (antes ++ l :: depois)
    = calcula_fluxo_caixa_direto plano_contas (antes ++ depois).
Proof.
  intros num N plano antes depois l H.
  rewrite !direto_percorre, percorre_sem_o_lancamento by exact H. reflexivity.
Qed.

Lemma direto_ignora_lancamento_sem_fluxo_witness :
  let transferencia := lancamento "1.1.2" "1.1.1" (b64_of_Z 250) in
  calcula_fluxo_caixa_direto init_plano_contas
    ([lancamento "1.1.1" "3.1.1" (b64_of_Z 1000)] ++
     transferencia :: [lancamento "4.1.2" "1.1.1" (b64_of_Z 300)])
  = calcula_fluxo_caixa_direto init_plano_contas diario_cenario.
Proof.
  intros transferencia.
  apply (@direto_ignora_lancamento_sem_fluxo b64 Numero_b64 init_plano_contas
           [lancamento "1.1.1" "3.1.1" (b64_of_Z 1000)]
           [lancamento "4.1.2" "1.1.1" (b64_of_Z 300)] transferencia).
  reflexivity.
Defined.

(** ** The keys of the report *)

Lemma chave_igual_eq (a b : string * string) : chave_igual a b = true <-> a = b.
Proof.
  destruct a as [a1 a2], b as [b1 b2]. unfold chave_igual. simpl.
  rewrite andb_true_iff, !String.eqb_eq. split.
  - intros [-> ->]. reflexivity.
  - intros [= -> ->]. auto.
Qed.

Lemma compare_refl (s : string) : String.compare s s = Eq.
Proof. apply OrderedTypeEx.String_as_OT.cmp_eq. reflexivity. Qed.

Lemma compare_trans (a b c : string) :
  String.compare a b = Lt -> String.compare b c = Lt -> String.compare a c = Lt.
Proof.
  intros H1 H2.
  apply OrderedTypeEx.String_as_OT.cmp_lt in H1.
  apply OrderedTypeEx.String_as_OT.cmp_lt in H2.
  apply OrderedTypeEx.String_as_OT.cmp_lt.
  eapply OrderedTypeEx.String_as_OT.lt_trans; eassumption.
Qed.

Lemma chave_menor_irrefl (a : string * string) : chave_menor a a = false.
Proof.
  unfold chave_menor, String.ltb. rewrite !compare_refl. reflexivity.
Qed.

Lemma chave_menor_trans (a b c : string * string) :
  chave_menor a b = true -> chave_menor b c = true -> chave_menor a c = true.
Proof.
  destruct a as [a1 a2], b as [b1 b2], c as [c1 c2].
  unfold chave_menor, String.ltb. simpl.
  destruct (String.compare a1 b1) eqn:Hab; try discriminate;
    destruct (String.compare b1 c1) eqn:Hbc; try discriminate;
    try (apply String.compare_eq_iff in Hab; subst);
    try (apply String.compare_eq_iff in Hbc; subst);
    rewrite ?compare_refl, ?Hab, ?Hbc; auto.
  - destruct (String.compare a2 b2) eqn:H1; try discriminate.
    destruct (String.compare b2 c2) eqn:H2; try discriminate.
    rewrite (compare_trans _ _ _ H1 H2). reflexivity.
  - rewrite (compare_trans _ _ _ Hab Hbc). reflexivity.
Qed.

Lemma chave_tricotomia (a b : string * string) :
  chave_igual a b = false -> chave_menor a b = false -> chave_menor b a = true.
Proof.
  destruct a as [a1 a2], b as [b1 b2].
  unfold chave_igual, chave_menor, String.ltb. simpl. intros Hne Hlt.
  rewrite (String.compare_antisym b1 a1).
  destruct (String.compare a1 b1) eqn:H1; simpl; try discriminate; try reflexivity.
  apply String.compare_eq_iff in H1. subst.
  rewrite String.eqb_refl in Hne. simpl in Hne.
  rewrite (String.compare_antisym b2 a2).
  destruct (String.compare a2 b2) eqn:H2; simpl; try discriminate; try reflexivity.
  apply String.compare_eq_iff in H2. subst.
  rewrite String.eqb_refl in Hne. discriminate.
Qed.

Lemma insere_chave_In (k x : string * string) (ks : list (string * string)) :
  In x (insere_chave k ks) <-> x = k \/ In x ks.
Proof.
  induction ks as [|k' ks IH]; simpl.
  - intuition.
  - destruct (chave_igual k k') eqn:He.
    + apply chave_igual_eq in He. subst. simpl. intuition.
    + destruct (chave_menor k k'); simpl; rewrite ?IH; intuition.
Qed.

Lemma insere_chave_crescente (k : string * string) (ks : list (string * string)) :
  StronglySorted chave_crescente ks -> StronglySorted chave_crescente (insere_chave k ks).
Proof.
  induction ks as [|k' ks IH]; simpl; intros Hs.
  - constructor; constructor.
  - apply StronglySorted_inv in Hs. destruct Hs as [Hs Hk'].
    destruct (chave_igual k k') eqn:He; [constructor; assumption|].
    destruct (chave_menor k k') eqn:Hlt.
    + constructor; [constructor; assumption|].
      constructor; [exact Hlt|].
      rewrite Forall_forall in *. intros x Hx.
      eapply chave_menor_trans; [exact Hlt | apply Hk'; exact Hx].
    + constructor; [apply IH; exact Hs|].
      rewrite Forall_forall in *. intros x Hx.
      apply insere_chave_In in Hx. destruct Hx as [->|Hx].
      * apply chave_tricotomia; assumption.
      * apply Hk'. exact Hx.
Qed.

Lemma crescente_NoDup (ks : list (string * string)) :
  StronglySorted chave_crescente ks -> NoDup ks.
Proof.
  induction 1 as [|k ks Hs IH Hk]; constructor; [|exact IH].
  intros Hin. rewrite Forall_forall in Hk. specialize (Hk _ Hin).
  unfold chave_crescente in Hk. rewrite chave_menor_irrefl in Hk. discriminate.
Qed.

Section ChavesFatos.
Context {num : Type} {N : Numero num}.

Lemma chaves_acumuladas (df : list (LinhaFluxo num)) (ks : list (string * string)) :
  let ks' := fold_left (fun ks r => insere_chave (chave r) ks) df ks in
  (StronglySorted chave_crescente ks -> StronglySorted chave_crescente ks') /\
  (forall k, In k ks' <-> In k ks \/ In k (map chave df)).
Proof.
  revert ks. induction df as [|r df IH]; intros ks; simpl.
  - split; [auto | intuition].
  - destruct (IH (insere_chave (chave r) ks)) as [Hs Hin]. split.
    + intros H. apply Hs, insere_chave_crescente, H.
    + intros k. rewrite Hin, insere_chave_In. intuition.
Qed.

Lemma chaves_crescentes (df : list (LinhaFluxo num)) :
  StronglySorted chave_crescente (chaves df) /\
  (forall k, In k (chaves df) <-> In k (map chave df)).
Proof.
  destruct (chaves_acumuladas df []) as [Hs Hin]. split.
  - apply Hs. constructor.
  - intros k. unfold chaves. rewrite Hin. simpl. intuition.
Qed.

Lemma chave_resumo (df : list (LinhaFluxo num)) : map chave (resumo df) = chaves df.
Proof.
  unfold resumo. rewrite map_map. unfold chave at 1. simpl.
  erewrite map_ext; [apply map_id|]. intros [t g]. reflexivity.
Qed.
End ChavesFatos.

(** X8.  A report returned by [calcula_fluxo_caixa_direto] lists each pair
    [(tipo, grupo_contraparte)] that the loop produced exactly once, in
    strictly ascending order of the pair (every "Entrada de Caixa" row
    before every "Saída de Caixa" row), and has no column [saldo] yet. *)
Theorem direto_chaves_crescentes :
  forall (num : Type) (N : Numero num)
         (plano_contas : list Conta) (lancamentos : list (Lancamento num))
         (fluxo_direto : QuadroFluxo num),
    calcula_fluxo_caixa_direto plano_contas lancamentos = Ok fluxo_direto ->
    exists linhas : list (LinhaFluxo num),
      percorre plano_contas (contas_caixa plano_contas) lancamentos [] = Ok linhas /\
      StronglySorted chave_crescente (map chave (linhas_fluxo fluxo_direto)) /\
      NoDup (map chave (linhas_fluxo fluxo_direto)) /\
      (forall k, In k (map chave (linhas_fluxo fluxo_direto)) <-> In k (map chave linhas)) /\
      coluna_saldo fluxo_direto = None.
Proof.
  intros num N plano lancs fd H. rewrite direto_percorre in H.
  destruct (percorre plano (contas_caixa plano) lancs []) as [linhas|e];
    simpl in H; [|discriminate].
  injection H as <-. exists linhas. simpl. rewrite chave_resumo.
  destruct (chaves_crescentes linhas) as [Hs Hin].
  repeat split; try assumption; try apply Hin.
  apply crescente_NoDup, Hs.
Qed.

Lemma direto_chaves_crescentes_witness :
  exists fluxo_direto : QuadroFluxo b64,
    calcula_fluxo_caixa_direto init_plano_contas diario_cenario = Ok fluxo_direto /\
    NoDup (map chave (linhas_fluxo fluxo_direto)).
Proof.
  destruct (calcula_fluxo_caixa_direto init_plano_contas diario_cenario)
    as [fd|e] eqn:H; [|vm_compute in H; discriminate H].
  exists fd. split; [reflexivity|].
  destruct (direto_chaves_crescentes b64 Numero_b64 init_plano_contas diario_cenario fd H)
    as (linhas & _ & _ & Hnd & _).
  exact Hnd.
Defined.

(** ** Grouping keeps the totals *)

Section ResumoTotais.
Context {num : Type} {N : Numero num} {E : Exata num}.

Lemma soma_particao (A : Type) (f : A -> num) (p q : A -> bool) (xs : list A) :
  (forall x, In x xs -> p x = true -> q x = true -> False) ->
  soma (map f (filter (fun x => p x || q x) xs))
  = (soma (map f (filter p xs)) + soma (map f (filter q xs)))%num.
Proof.
  induction xs as [|x xs IH]; intros Hdisj; simpl.
  - unfold soma. simpl. symmetry. apply mais_zero_l.
  - assert (IH' := IH (fun y Hy => Hdisj y (or_intror Hy))).
    destruct (p x) eqn:Hp, (q x) eqn:Hq; simpl.
    + exfalso. apply (Hdisj x); [left; reflexivity | exact Hp | exact Hq].
    + rewrite !soma_cons, IH'. apply mais_assoc.
    + rewrite !soma_cons, IH'. rewrite !mais_assoc. f_equal. apply mais_comm.
    + exact IH'.
Qed.

Lemma filter_nenhum (A : Type) (xs : list A) : filter (fun _ => false) xs = [].
Proof. induction xs; simpl; auto. Qed.

Lemma filter_todos (A : Type) (p : A -> bool) (xs : list A) :
  (forall x, In x xs -> p x = true) -> filter p xs = xs.
Proof.
  induction xs as [|x xs IH]; intros H; simpl; [reflexivity|].
  rewrite (H x (or_introl eq_refl)), IH; [reflexivity|].
  intros y Hy. apply H. right. exact Hy.
Qed.

Lemma soma_por_chaves (f : LinhaFluxo num -> num) (df : list (LinhaFluxo num))
      (ks : list (string * string)) :
  NoDup ks ->
  soma (map (fun k => soma (map f (filter (fun r => chave_igual (chave r) k) df))) ks)
  = soma (map f (filter (fun r => existsb (chave_igual (chave r)) ks) df)).
Proof.
  induction 1 as [|k ks Hk Hnd IH]; simpl.
  - rewrite filter_nenhum. reflexivity.
  - rewrite soma_cons, IH. symmetry. apply soma_particao.
    intros r _ H1 H2. apply chave_igual_eq in H1. apply existsb_exists in H2.
    destruct H2 as (k' & Hk' & Heq). apply chave_igual_eq in Heq.
    apply Hk. congruence.
Qed.

Lemma resumo_soma (f : LinhaFluxo num -> num) (df : list (LinhaFluxo num)) :
  soma (map (fun k => soma (map f (filter (fun r => chave_igual (chave r) k) df)))
          (chaves df))
  = soma (map f df).
Proof.
  destruct (chaves_crescentes df) as [Hs Hin].
  rewrite soma_por_chaves by (apply crescente_NoDup, Hs).
  rewrite filter_todos; [reflexivity|].
  intros r Hr. apply existsb_exists. exists (chave r). split.
  - apply Hin. apply in_map. exact Hr.
  - apply chave_igual_eq. reflexivity.
Qed.

Lemma resumo_totais (df : list (LinhaFluxo num)) :
  soma (map (@entrada num) (resumo df)) = soma (map (@entrada num) df) /\
  soma (map (@saida num) (resumo df)) = soma (map (@saida num) df).
Proof.
  unfold resumo. rewrite !map_map. simpl. split; apply resumo_soma.
Qed.
End ResumoTotais.

(** X9.  In an arithmetic whose additions do not round, grouping keeps the
    totals: the [entrada] column of a report returned by
    [calcula_fluxo_caixa_direto] sums to the total of the inflows the loop
    found, and its [saida] column to the total of the outflows. *)
Theorem direto_agrupamento_conserva_totais :
  forall (num : Type) (N : Numero num) (E : Exata num)
         (plano_contas : list Conta) (lancamentos : list (Lancamento num))
         (fluxo_direto : QuadroFluxo num),
    calcula_fluxo_caixa_direto plano_contas lancamentos = Ok fluxo_direto ->
    exists linhas : list (LinhaFluxo num),
      percorre plano_contas (contas_caixa plano_contas) lancamentos [] = Ok linhas /\
      soma (map (@entrada num) (linhas_fluxo fluxo_direto))
        = soma (map (@entrada num) linhas) /\
      soma (map (@saida num) (linhas_fluxo fluxo_direto))
        = soma (map (@saida num) linhas).
Proof.
  intros num N E plano lancs fd H. rewrite direto_percorre in H.
  destruct (percorre plano (contas_caixa plano) lancs []) as [linhas|e];
    simpl in H; [|discriminate].
  injection H as <-. exists linhas. split; [reflexivity|]. apply resumo_totais.
Qed.

Lemma direto_agrupamento_conserva_totais_witness :
  exists fluxo_direto : QuadroFluxo Z,
    calcula_fluxo_caixa_direto init_plano_contas diario_cenario_inteiro = Ok fluxo_direto /\
    soma (map (@entrada Z) (linhas_fluxo fluxo_direto)) = 1000%Z /\
    soma (map (@saida Z) (linhas_fluxo fluxo_direto)) = 300%Z.
Proof.
  destruct (calcula_fluxo_caixa_direto init_plano_contas diario_cenario_inteiro)
    as [fd|e] eqn:H; [|vm_compute in H; discriminate H].
  exists fd. split; [reflexivity|].
  destruct (direto_agrupamento_conserva_totais Z Numero_Z Exata_Z init_plano_contas
              diario_cenario_inteiro fd H) as (linhas & Hl & He & Hs).
  vm_compute in Hl. injection Hl as <-. split; [exact He | exact Hs].
Defined.

(** ** The rows of the report *)

Lemma loc_grupo_de_uma_conta (plano : list Conta) (c g : string) :
  loc_grupo plano c = Ok g -> exists a, In a plano /\ g = grupo a.
Proof.
  unfold loc_grupo. intros H.
  destruct (filter (fun a => String.eqb (codigo a) c) plano) as [|a [|b resto]] eqn:Hf;
    try discriminate.
  injection H as <-. exists a. split; [|reflexivity].
  assert (Hin : In a (filter (fun a => String.eqb (codigo a) c) plano))
    by (rewrite Hf; left; reflexivity).
  apply filter_In in Hin. tauto.
Qed.

Section LinhasDeUmLado.
Context {num : Type} {N : Numero num}.
Hypothesis zero_mais_zero : (zero + zero)%num = zero.

Lemma soma_de_zeros (xs : list num) : Forall (fun x => x = zero) xs -> soma xs = zero.
Proof.
  unfold soma. induction 1 as [|x xs Hx _ IH]; simpl; [reflexivity|].
  rewrite Hx, zero_mais_zero. exact IH.
Qed.

Lemma classifica_de_um_lado (plano : list Conta) (cc : list string)
      (l : Lancamento num) (novas : list (LinhaFluxo num)) :
  classifica plano cc l = Ok novas -> Forall (linha_de_um_lado plano) novas.
Proof.
  unfold classifica.
  destruct (pertence (conta_debito l) cc && negb (pertence (conta_credito l) cc)).
  - destruct (loc_grupo plano (conta_credito l)) as [g|e] eqn:Hg; simpl; [|discriminate].
    intros [= <-]. constructor; [|constructor].
    split; [exact (loc_grupo_de_uma_conta _ _ _ Hg) | left; split; reflexivity].
  - destruct (pertence (conta_credito l) cc && negb (pertence (conta_debito l) cc)).
    + destruct (loc_grupo plano (conta_debito l)) as [g|e] eqn:Hg; simpl; [|discriminate].
      intros [= <-]. constructor; [|constructor].
      split; [exact (loc_grupo_de_uma_conta _ _ _ Hg) | right; split; reflexivity].
    + intros [= <-]. constructor.
Qed.

Lemma percorre_de_um_lado (plano : list Conta) (cc : list string)
      (lancs : list (Lancamento num)) (linhas todas : list (LinhaFluxo num)) :
  Forall (linha_de_um_lado plano) linhas ->
  percorre plano cc lancs linhas = Ok todas ->
  Forall (linha_de_um_lado plano) todas.
Proof.
  revert linhas. induction lancs as [|l lancs IH]; intros linhas Hl; simpl.
  - intros [= <-]. exact Hl.
  - destruct (classifica plano cc l) as [novas|e] eqn:Hc; simpl; [|discriminate].
    apply IH. apply Forall_app. split; [exact Hl|].
    eapply classifica_de_um_lado. exact Hc.
Qed.

Lemma resumo_de_um_lado (plano : list Conta) (df : list (LinhaFluxo num)) :
  Forall (linha_de_um_lado plano) df -> Forall (linha_de_um_lado plano) (resumo df).
Proof.
  intros Hdf. rewrite Forall_forall in *. intros r' Hr'.
  unfold resumo in Hr'. apply in_map_iff in Hr'. destruct Hr' as (k & <- & Hk).
  apply (proj2 (chaves_crescentes df)) in Hk. apply in_map_iff in Hk.
  destruct Hk as (r0 & <- & Hr0).
  destruct (Hdf r0 Hr0) as [Hconta Hlado]. split; [exact Hconta|]. simpl.
  assert (Hgrp : forall r, In r (filter (fun r => chave_igual (chave r) (chave r0)) df) ->
                   linha_de_um_lado plano r /\ tipo r = tipo r0).
  { intros r Hr. apply filter_In in Hr. destruct Hr as [Hr Hk].
    apply chave_igual_eq in Hk. injection Hk as Ht _. auto. }
  destruct Hlado as [[Ht _]|[Ht _]]; [left|right]; (split; [exact Ht|]);
    apply soma_de_zeros; rewrite Forall_forall; intros x Hx;
    apply in_map_iff in Hx; destruct Hx as (r & <- & Hr);
    destruct (Hgrp r Hr) as [[_ [[Ht' Hz]|[Ht' Hz]]] Htipo];
    try exact Hz; rewrite Htipo, Ht in Ht'; discriminate Ht'.
Qed.
End LinhasDeUmLado.

(** X10.  In an arithmetic where [0 + 0 = 0], every row of a report
    returned by [calcula_fluxo_caixa_direto] carries the group of some
    account of the chart and is one-sided: an "Entrada de Caixa" row has
    [saida = 0], a "Saída de Caixa" row has [entrada = 0], and there is no
    other [tipo]. *)
Theorem direto_linhas_de_um_lado :
  forall (num : Type) (N : Numero num),
    (zero + zero)%num = zero ->
    forall (plano_contas : list Conta) (lancamentos : list (Lancamento num))
           (fluxo_direto : QuadroFluxo num),
      calcula_fluxo_caixa_direto plano_contas lancamentos = Ok fluxo_direto ->
      Forall (linha_de_um_lado plano_contas) (linhas_fluxo fluxo_direto).
Proof.
  intros num N H0 plano lancs fd H. rewrite direto_percorre in H.
  destruct (percorre plano (contas_caixa plano) lancs []) as [linhas|e] eqn:Hp;
    simpl in H; [|discriminate].
  injection H as <-. simpl. apply resumo_de_um_lado; [exact H0|].
  eapply percorre_de_um_lado; [constructor | exact Hp].
Qed.

Lemma direto_linhas_de_um_lado_witness :
  exists fluxo_direto : QuadroFluxo b64,
    calcula_fluxo_caixa_direto init_plano_contas diario_cenario = Ok fluxo_direto /\
    Forall (linha_de_um_lado init_plano_contas) (linhas_fluxo fluxo_direto).
Proof.
  destruct (calcula_fluxo_caixa_direto init_plano_contas diario_cenario)
    as [fd|e] eqn:H; [|vm_compute in H; discriminate H].
  exists fd. split; [reflexivity|].
  apply (direto_linhas_de_um_lado b64 Numero_b64 eq_refl init_plano_contas
           diario_cenario fd H).
Defined.

(* ===================================================================== *)
(** * The two cash-flow figures, with integer amounts *)
(* ===================================================================== *)















(* ===================================================================== *)
(** * The indirect statement and the page that shows both methods *)
(* ===================================================================== *)

Section IndiretoFatos.
Context {num : Type} {N : Numero num}.

Lemma atribui_saldo_idempotente (fluxo_direto : QuadroFluxo num) :
  atribui_saldo (atribui_saldo fluxo_direto) = atribui_saldo fluxo_direto.
Proof. reflexivity. Qed.

Lemma indireto_linhas (balancete : list (LinhaBalancete num))
      (fluxo_direto : QuadroFluxo num) (lucro_liquido : num) :
  fst (calcula_fluxo_caixa_indireto balancete fluxo_direto lucro_liquido)
  = [ ("Lucro / Prejuízo do Período", lucro_liquido);
      ("(+/-) Ajustes no capital de giro (simplificado)",
       (caixa_liquido (linhas_fluxo fluxo_direto) - lucro_liquido)%num);
      ("= Caixa líquido das atividades operacionais",
       caixa_liquido (linhas_fluxo fluxo_direto));
      ("Variação de Caixa no Período",
       soma (map (@saldo num)
               (filter (fun r => eh_caixa (cadastro (totais r))) balancete))) ].
Proof.
  unfold calcula_fluxo_caixa_indireto, com_valor, vazio, caixa_liquido.
  rewrite map_map. simpl.
  destruct fluxo_direto as [linhas col]. simpl.
  destruct linhas; reflexivity.
Qed.

Lemma indireto_estado (balancete : list (LinhaBalancete num))
      (fluxo_direto : QuadroFluxo num) (lucro_liquido : num) :
  snd (calcula_fluxo_caixa_indireto balancete fluxo_direto lucro_liquido)
  = if vazio fluxo_direto then fluxo_direto else atribui_saldo fluxo_direto.
Proof.
  unfold calcula_fluxo_caixa_indireto.
  destruct (vazio fluxo_direto); reflexivity.
Qed.
End IndiretoFatos.

(** X12.  What [calcula_fluxo_caixa_indireto] does to the frame it is
    given: the rows are kept as they are; a frame without rows is left
    untouched, and a frame with rows gets the column [saldo], one cell
    [entrada - saida] per row, whatever column [saldo] it had.  The lines
    returned do not depend on that former column, so a second call on the
    frame the first one left returns the same lines and leaves the same
    frame. *)
Theorem indireto_efeito_no_argumento :
  forall (num : Type) (N : Numero num) (balancete : list (LinhaBalancete num))
         (fluxo_direto : QuadroFluxo num) (lucro_liquido : num),
    let chamada := calcula_fluxo_caixa_indireto balancete fluxo_direto lucro_liquido in
    linhas_fluxo (snd chamada) = linhas_fluxo fluxo_direto /\
    coluna_saldo (snd chamada)
      = match linhas_fluxo fluxo_direto with
        | [] => coluna_saldo fluxo_direto
        | _ :: _ =>
            Some (map (fun r => (entrada r - saida r)%num) (linhas_fluxo fluxo_direto))
        end /\
    (forall col,
       fst (calcula_fluxo_caixa_indireto balancete
              {| linhas_fluxo := linhas_fluxo fluxo_direto; coluna_saldo := col |}
              lucro_liquido)
       = fst chamada) /\
    calcula_fluxo_caixa_indireto balancete (snd chamada) lucro_liquido = chamada.
Proof.
  intros num N balancete fd lucro chamada. unfold chamada.
  destruct fd as [linhas col]. unfold calcula_fluxo_caixa_indireto, vazio. simpl.
  destruct linhas as [|r linhas]; simpl; repeat split.
Qed.

Section PaginaFluxoFatos.
Context {num : Type} {N : Numero num}.

Lemma pagina_fluxo_caixa_retorno (plano : list Conta) (l : Lancamento num)
      (lancs : list (Lancamento num)) (fd : QuadroFluxo num) :
  calcula_fluxo_caixa_direto plano (l :: lancs) = Ok fd ->
  let balancete := calcula_balancete plano (l :: lancs) in
  let lucro := snd (calcula_dre balancete) in
  pagina_fluxo_caixa plano (l :: lancs)
  = Ok (Some {| tela_direto :=
                  match linhas_fluxo fd with
                  | [] => None
                  | _ :: _ => Some (atribui_saldo fd, caixa_liquido (linhas_fluxo fd))
                  end;
                tela_indireto :=
                  fst (calcula_fluxo_caixa_indireto balancete fd lucro) |}).
Proof.
  intros H balancete lucro. subst balancete lucro.
  unfold pagina_fluxo_caixa. rewrite H. simpl liga.
  pose proof (indireto_estado (calcula_balancete plano (l :: lancs)) fd
                (snd (calcula_dre (calcula_balancete plano (l :: lancs))))) as Hest.
  set (chamada := calcula_fluxo_caixa_indireto _ _ _) in *.
  destruct chamada as [linhas fd']. simpl in Hest. subst fd'. simpl fst.
  unfold vazio. destruct fd as [rows col]. simpl. destruct rows; reflexivity.
Qed.
End PaginaFluxoFatos.

(** X13.  The page "Fluxo de Caixa": on an empty journal it calls nothing
    and shows only a notice; on any other journal it raises what
    [calcula_fluxo_caixa_direto] raises, and otherwise shows the four lines
    of the indirect statement and, when the report has rows, the report
    with its column [saldo] together with an operating cash equal to the
    third line of the indirect statement.  The frame shown is the one the
    engine left: the page's own assignment of [saldo] changes nothing. *)
Theorem pagina_fluxo_caixa_mostra :
  forall (num : Type) (N : Numero num)
         (plano_contas : list Conta) (lancamentos : list (Lancamento num)),
    (lancamentos = [] -> pagina_fluxo_caixa plano_contas lancamentos = Ok None) /\
    (lancamentos <> [] ->
     forall e, calcula_fluxo_caixa_direto plano_contas lancamentos = Levanta e ->
               pagina_fluxo_caixa plano_contas lancamentos = Levanta e) /\
    (lancamentos <> [] ->
     forall fluxo_direto,
       calcula_fluxo_caixa_direto plano_contas lancamentos = Ok fluxo_direto ->
       let balancete := calcula_balancete plano_contas lancamentos in
       let lucro := snd (calcula_dre balancete) in
       let chamada := calcula_fluxo_caixa_indireto balancete fluxo_direto lucro in
       exists tela,
         pagina_fluxo_caixa plano_contas lancamentos = Ok (Some tela) /\
         tela_indireto tela = fst chamada /\
         (linhas_fluxo fluxo_direto = [] -> tela_direto tela = None) /\
         (linhas_fluxo fluxo_direto <> [] ->
          exists caixa_oper,
            tela_direto tela = Some (snd chamada, caixa_oper) /\
            nth_error (tela_indireto tela) 2
            = Some ("= Caixa líquido das atividades operacionais", caixa_oper))).
Proof.
  intros num N plano lancs. split; [|split].
  - intros ->. reflexivity.
  - intros Hne e He. destruct lancs as [|l lancs]; [contradiction|].
    unfold pagina_fluxo_caixa. rewrite He. reflexivity.
  - intros Hne fd Hfd balancete lucro chamada.
    destruct lancs as [|l lancs]; [contradiction|].
    eexists. split; [apply pagina_fluxo_caixa_retorno; exact Hfd|]. simpl.
    split; [reflexivity|]. split.
    + intros ->. reflexivity.
    + intros Hrows. exists (caixa_liquido (linhas_fluxo fd)). split.
      * unfold chamada. rewrite indireto_estado. unfold vazio.
        destruct (linhas_fluxo fd); [contradiction|reflexivity].
      * fold balancete. fold lucro. rewrite indireto_linhas. reflexivity.
Qed.

Lemma pagina_fluxo_caixa_mostra_witness :
  pagina_fluxo_caixa init_plano_contas diario_conta_ausente = Levanta (KeyError "9.9.9").
Proof.
  apply (proj1 (proj2 (pagina_fluxo_caixa_mostra b64 Numero_b64 init_plano_contas
                         diario_conta_ausente))).
  - discriminate.
  - vm_compute. reflexivity.
Defined.

(* ===================================================================== *)
(** * The entry form and the session *)
(* ===================================================================== *)

Lemma split_primeiro_codigo (cod resto : string) :
  sem_espaco cod = true -> split_primeiro " - " (cod ++ " - " ++ resto) = cod.
Proof.
  induction cod as [|c cod IH]; intros H.
  - cbn. destruct resto; reflexivity.
  - simpl in H. apply andb_true_iff in H. destruct H as [Hc Hcod].
    change ((String c cod ++ " - " ++ resto)%string)
      with (String c (cod ++ " - " ++ resto)%string).
    unfold split_primeiro; fold split_primeiro.
    assert (Hp : prefix " - " (String c (cod ++ " - " ++ resto)%string) = false).
    { simpl.
      match goal with
      | |- (match ?d with left _ => _ | right _ => _ end) = false =>
          destruct d as [Heq|Hne]; [|reflexivity]
      end.
      subst c. discriminate Hc. }
    rewrite Hp, (IH Hcod). reflexivity.
Qed.

Lemma sem_espaco_sem_separador (cod a b : string) :
  sem_espaco cod = true -> cod <> (a ++ " - " ++ b)%string.
Proof.
  revert cod. induction a as [|c a IH]; intros cod H Heq; subst cod.
  - discriminate H.
  - simpl in H. apply andb_true_iff in H. destruct H as [_ H].
    exact (IH _ H eq_refl).
Qed.

(** X14.  The form recovers the codes it offered: when the codes of the
    two chosen accounts have no blank, submitting their options (code,
    " - ", name) appends to the journal one entry carrying exactly those
    two codes, whatever the account names contain, and leaves the chart and
    the earlier entries as they were. *)
Theorem formulario_recupera_codigos :
  forall (num : Type) (N : Numero num) (st : Estado num) (deb cred : Conta)
         (data_lcto historico : string) (valor : num),
    sem_espaco (codigo deb) = true ->
    sem_espaco (codigo cred) = true ->
    inclui_lancamento st data_lcto historico
      (codigo deb ++ " - " ++ conta deb) (codigo cred ++ " - " ++ conta cred) valor
    = {| st_plano_contas := st_plano_contas st;
         st_lancamentos :=
           (st_lancamentos st ++
            [ {| data := data_lcto; historico := historico;
                 conta_debito := codigo deb; conta_credito := codigo cred;
                 valor := valor |} ])%list |}.
Proof.
  intros num N st deb cred data_lcto historico v Hd Hc.
  unfold inclui_lancamento. rewrite !split_primeiro_codigo by assumption. reflexivity.
Qed.

Lemma formulario_recupera_codigos_witness :
  st_lancamentos
    (inclui_lancamento (@estado_inicial b64) "2024-01-31" "Venda - à vista"
       "1.1.1 - Caixa" "3.1.1 - Receita de Vendas" (b64_of_Z 1000))
  = [ {| data := "2024-01-31"; historico := "Venda - à vista";
         conta_debito := "1.1.1"; conta_credito := "3.1.1"; valor := b64_of_Z 1000 |} ].
Proof.
  exact (f_equal (@st_lancamentos b64)
           (formulario_recupera_codigos b64 Numero_b64 estado_inicial
              conta_caixa conta_receita "2024-01-31" "Venda - à vista" (b64_of_Z 1000)
              eq_refl eq_refl)).
Defined.

(** X15.  A code that contains the separator is not recovered: for an
    account whose code is [x], " - ", [y], with no blank in [x], the entry
    that the form records carries [x], which is not the account's code. *)
Theorem formulario_trunca_codigo_com_separador :
  forall (num : Type) (N : Numero num) (st : Estado num) (deb cred : Conta)
         (x y data_lcto historico : string) (valor : num),
    codigo deb = (x ++ " - " ++ y)%string ->
    sem_espaco x = true ->
    let st' := inclui_lancamento st data_lcto historico
                 (codigo deb ++ " - " ++ conta deb) (codigo cred ++ " - " ++ conta cred)
                 valor in
    exists novo,
      st_lancamentos st' = (st_lancamentos st ++ [novo])%list /\
      conta_debito novo = x /\ conta_debito novo <> codigo deb.
Proof.
  intros num N st deb cred x y data_lcto historico v Hcod Hx st'.
  eexists. split; [reflexivity|]. cbn [conta_debito].
  assert (Hsplit : split_primeiro " - " (codigo deb ++ " - " ++ conta deb) = x).
  { rewrite Hcod.
    replace ((x ++ " - " ++ y) ++ " - " ++ conta deb)%string
      with (x ++ " - " ++ (y ++ " - " ++ conta deb))%string.
    - apply split_primeiro_codigo. exact Hx.
    - clear. induction x as [|c x IH]; simpl.
      + reflexivity.
      + f_equal. exact IH. }
  rewrite Hsplit. split; [reflexivity|].
  rewrite Hcod. apply sem_espaco_sem_separador. exact Hx.
Qed.

Lemma formulario_trunca_codigo_com_separador_witness :
  let filial := {| codigo := "1.1 - A"; conta := "Caixa da filial"; grupo := "Ativo";
                   natureza := Texto "Devedora"; eh_caixa := true |} in
  exists novo : Lancamento b64,
    st_lancamentos
      (inclui_lancamento estado_inicial "2024-01-31" ""
         "1.1 - A - Caixa da filial" "3.1.1 - Receita de Vendas" (b64_of_Z 1000))
    = [novo] /\ conta_debito novo = "1.1".
Proof.
  intros filial.
  destruct (formulario_trunca_codigo_com_separador b64 Numero_b64 estado_inicial
              filial conta_receita "1.1" "A" "2024-01-31" "" (b64_of_Z 1000)
              eq_refl eq_refl) as (novo & Hst & Hdeb & _).
  exists novo. split; [exact Hst | exact Hdeb].
Defined.

Section SessaoFatos.
Context {num : Type} {N : Numero num}.

Lemma opcao_do_combo (plano : list Conta) (opcao : string) :
  Forall (fun a => sem_espaco (codigo a) = true) plano ->
  In opcao (contas_combo plano) ->
  In (split_primeiro " - " opcao) (map codigo plano).
Proof.
  intros Hcod Hin. unfold contas_combo in Hin. apply in_map_iff in Hin.
  destruct Hin as (a & <- & Ha). rewrite Forall_forall in Hcod.
  rewrite split_primeiro_codigo by (apply Hcod; exact Ha).
  apply in_map. exact Ha.
Qed.

Lemma executa_acao_invariante (plano : list Conta) (st : Estado num) (a : Acao num) :
  Forall (fun a => sem_espaco (codigo a) = true) plano ->
  acao_do_formulario plano a ->
  st_plano_contas st = plano /\ Forall (resolvido plano) (st_lancamentos st) ->
  st_plano_contas (executa_acao st a) = plano /\
  Forall (resolvido plano) (st_lancamentos (executa_acao st a)).
Proof.
  intros Hcod Ha [Hplano Hres]. destruct st as [p lancs]. simpl in Hplano, Hres.
  subst p. destruct a as [edited|d h od oc v|]; simpl in Ha.
  - subst edited. split; [reflexivity | exact Hres].
  - unfold executa_acao. cbn [st_plano_contas].
    destruct plano as [|a0 plano']; [split; [reflexivity | exact Hres]|].
    unfold inclui_lancamento. cbn [st_plano_contas st_lancamentos].
    split; [reflexivity|].
    apply Forall_app. split; [exact Hres|]. constructor; [|constructor].
    destruct Ha as [Hod Hoc].
    split; cbn [conta_debito conta_credito]; apply opcao_do_combo; assumption.
  - unfold executa_acao. cbn [st_plano_contas].
    destruct plano as [|a0 plano']; [split; [reflexivity | exact Hres]|].
    split; [reflexivity | constructor].
Qed.

Lemma resolvido_classificavel (plano : list Conta) (l : Lancamento num) :
  resolvido plano l -> classificavel plano l.
Proof. intros [Hd Hc]. split; auto. Qed.
End SessaoFatos.

Section SessaoInvariante.
Context {num : Type} {N : Numero num}.

Lemma direto_classificavel_retorna (plano : list Conta) (lancs : list (Lancamento num)) :
  NoDup (map codigo plano) -> Forall (classificavel plano) lancs ->
  exists fd, calcula_fluxo_caixa_direto plano lancs = Ok fd.
Proof.
  intros Hnd Hall. rewrite direto_percorre.
  destruct (percorre_casos plano lancs [] Hnd) as [[_ (todas & ->)] | [Hn _]].
  - simpl. eauto.
  - contradiction.
Qed.

Lemma executa_invariante (plano : list Conta) (acoes : list (Acao num)) (st : Estado num) :
  Forall (fun a => sem_espaco (codigo a) = true) plano ->
  Forall (acao_do_formulario plano) acoes ->
  st_plano_contas st = plano /\ Forall (resolvido plano) (st_lancamentos st) ->
  st_plano_contas (executa st acoes) = plano /\
  Forall (resolvido plano) (st_lancamentos (executa st acoes)).
Proof.
  intros Hcod Hacoes. revert st.
  induction Hacoes as [|a acoes Ha _ IH]; intros st Hst; [exact Hst|].
  unfold executa in *. simpl. apply IH.
  apply executa_acao_invariante; assumption.
Qed.
End SessaoInvariante.

(** X16.  As long as the chart is not edited, every entry of the journal
    was made through the form: on a chart whose codes have no blank, after
    any sequence of submissions and clearings the chart is the same and
    both codes of every entry are codes of the chart.  With unique codes,
    [calcula_fluxo_caixa_direto] then returns a report: the [KeyError] of a
    missing code needs an edit of the chart. *)
Theorem sessao_sem_edicao_resolve_todo_lancamento :
  forall (num : Type) (N : Numero num) (plano : list Conta)
         (st : Estado num) (acoes : list (Acao num)),
    Forall (fun a => sem_espaco (codigo a) = true) plano ->
    st_plano_contas st = plano ->
    Forall (resolvido plano) (st_lancamentos st) ->
    Forall (acao_do_formulario plano) acoes ->
    st_plano_contas (executa st acoes) = plano /\
    Forall (resolvido plano) (st_lancamentos (executa st acoes)) /\
    (NoDup (map codigo plano) ->
     exists fluxo_direto,
       calcula_fluxo_caixa_direto plano (st_lancamentos (executa st acoes))
       = Ok fluxo_direto).
Proof.
  intros num N plano st acoes Hcod Hplano Hres Hacoes.
  destruct (executa_invariante plano acoes st Hcod Hacoes (conj Hplano Hres))
    as [Hp Hr].
  split; [exact Hp|]. split; [exact Hr|].
  intros Hnd. apply direto_classificavel_retorna; [exact Hnd|].
  eapply Forall_impl; [|exact Hr]. intros l. apply resolvido_classificavel.
Qed.

Lemma init_plano_contas_sem_espaco :
  Forall (fun a => sem_espaco (codigo a) = true) init_plano_contas.
Proof. repeat constructor. Qed.

Lemma sessao_sem_edicao_resolve_todo_lancamento_witness :
  let acoes : list (Acao b64) :=
    [ IncluiLancamento "2024-01-05" "Venda" "1.1.1 - Caixa"
        "3.1.1 - Receita de Vendas" (b64_of_Z 1000);
      LimpaLancamentos;
      EditaPlano init_plano_contas;
      IncluiLancamento "2024-01-31" "Folha" "4.1.2 - Despesas com Pessoal"
        "1.1.1 - Caixa" (b64_of_Z 300) ] in
  exists fluxo_direto,
    calcula_fluxo_caixa_direto init_plano_contas
      (st_lancamentos (executa estado_inicial acoes)) = Ok fluxo_direto.
Proof.
  intros acoes.
  refine (proj2 (proj2 (sessao_sem_edicao_resolve_todo_lancamento b64 Numero_b64
                          init_plano_contas estado_inicial acoes
                          init_plano_contas_sem_espaco eq_refl _ _))
            init_plano_contas_NoDup).
  - constructor.
  - assert (Hop : forall opcao,
              In opcao ["1.1.1 - Caixa"; "3.1.1 - Receita de Vendas";
                        "4.1.2 - Despesas com Pessoal"] ->
              In opcao (contas_combo init_plano_contas)).
    { intros opcao [<-|[<-|[<-|[]]]]; unfold contas_combo; simpl map;
        repeat first [left; reflexivity | right]. }
    constructor; [split; apply Hop; simpl; tauto|].
    constructor; [exact I|].
    constructor; [reflexivity|].
    constructor; [split; apply Hop; simpl; tauto|].
    constructor.
Defined.

(* ===================================================================== *)
(** * The totals of the balance-sheet page, with integer amounts *)
(* ===================================================================== *)






(* ===================================================================== *)
(** * The order of the journal, and the accounts no entry names *)
(* ===================================================================== *)

Section OrdemDoDiario.
Context {num : Type} {N : Numero num} {E : Exata num}.

Lemma soma_permutacao (xs ys : list num) : Permutation xs ys -> soma xs = soma ys.
Proof.
  induction 1 as [|x xs ys _ IH|x y xs|xs ys zs _ IH1 _ IH2].
  - reflexivity.
  - rewrite !soma_cons, IH. reflexivity.
  - rewrite !soma_cons, !mais_assoc. f_equal. apply mais_comm.
  - rewrite IH1. exact IH2.
Qed.

Lemma filter_permutacao (A : Type) (p : A -> bool) (xs ys : list A) :
  Permutation xs ys -> Permutation (filter p xs) (filter p ys).
Proof.
  induction 1 as [|x xs ys _ IH|x y xs|xs ys zs _ IH1 _ IH2]; simpl.
  - constructor.
  - destruct (p x); [constructor|]; exact IH.
  - destruct (p x), (p y); try constructor; apply Permutation_refl.
  - eapply Permutation_trans; eassumption.
Qed.

Lemma totais_da_conta_permutacao (a : Conta) (lancs lancs' : list (Lancamento num)) :
  Permutation lancs lancs' -> totais_da_conta lancs a = totais_da_conta lancs' a.
Proof.
  intros H. unfold totais_da_conta. f_equal;
    apply soma_permutacao, Permutation_map, filter_permutacao, H.
Qed.
End OrdemDoDiario.

(** X18.  In an arithmetic whose additions do not round, the trial balance
    does not depend on the order of the journal.  In binary64 it does:
    0.1, 0.2 and 0.3 received in cash in this order leave 0.6000000000000001
    in the account, and 0.6 in the reverse order. *)
Theorem balancete_independe_da_ordem :
  (forall (num : Type) (N : Numero num) (E : Exata num) (plano_contas : list Conta)
          (lancamentos lancamentos' : list (Lancamento num)),
      Permutation lancamentos lancamentos' ->
      calcula_balancete plano_contas lancamentos
      = calcula_balancete plano_contas lancamentos') /\
  (let l1 := lancamento "1.1.1" "3.1.1" (b64_frac 1 10) in
   let l2 := lancamento "1.1.1" "3.1.1" (b64_frac 2 10) in
   let l3 := lancamento "1.1.1" "3.1.1" (b64_frac 3 10) in
   Permutation [l1; l2; l3] [l3; l2; l1] /\
   hd_error (coluna_debito (calcula_balancete plano_vendas [l1; l2; l3]))
     = Some (S754_finite false 5404319552844596 (-53)) /\
   hd_error (coluna_debito (calcula_balancete plano_vendas [l3; l2; l1]))
     = Some (b64_frac 6 10)).
Proof.
  split.
  - intros num N E plano lancs lancs' H. rewrite !balancete_por_conta.
    apply map_ext. intros a. rewrite (totais_da_conta_permutacao a lancs lancs' H).
    reflexivity.
  - intros l1 l2 l3. split; [|split; vm_compute; reflexivity].
    apply Permutation_trans with [l2; l3; l1].
    + apply Permutation_trans with [l2; l1; l3]; [apply perm_swap|].
      apply perm_skip, perm_swap.
    + apply perm_swap.
Qed.

Lemma balancete_independe_da_ordem_witness :
  calcula_balancete init_plano_contas diario_cenario_inteiro
  = calcula_balancete init_plano_contas (rev diario_cenario_inteiro).
Proof.
  apply (proj1 balancete_independe_da_ordem Z Numero_Z Exata_Z).
  apply Permutation_rev.
Defined.

Lemma filter_lado_ausente (num : Type) (c : string) (lado : Lancamento num -> string)
      (lancs : list (Lancamento num)) :
  (forall l, In l lancs -> lado l <> c) ->
  filter (fun l => String.eqb c (lado l)) lancs = [].
Proof.
  induction lancs as [|l lancs IH]; intros Hlado; [reflexivity|]. simpl.
  destruct (String.eqb_spec c (lado l)) as [Heq|_].
  - exfalso. apply (Hlado l); [left; reflexivity | symmetry; exact Heq].
  - apply IH. intros l' Hl'. apply Hlado. right. exact Hl'.
Qed.

Lemma balancete_conta_sem_lancamento (num : Type) (N : Numero num)
      (plano : list Conta) (lancs : list (Lancamento num)) (r : LinhaBalancete num) :
  In r (calcula_balancete plano lancs) ->
  (forall l, In l lancs ->
     conta_debito l <> codigo (cadastro (totais r)) /\
     conta_credito l <> codigo (cadastro (totais r))) ->
  r = calcula_saldos {| cadastro := cadastro (totais r); debito := zero; credito := zero |}.
Proof.
  intros Hr Hsem. rewrite balancete_por_conta in Hr. apply in_map_iff in Hr.
  destruct Hr as (a & <- & _). rewrite totais_calcula_saldos in *.
  change (cadastro (totais_da_conta lancs a)) with a in *.
  f_equal. unfold totais_da_conta.
  rewrite (filter_lado_ausente num (codigo a) (@conta_debito num))
    by (intros l Hl; apply (proj1 (Hsem l Hl))).
  rewrite (filter_lado_ausente num (codigo a) (@conta_credito num))
    by (intros l Hl; apply (proj2 (Hsem l Hl))).
  reflexivity.
Qed.

(** X19.  An account that no entry of the journal names has both totals
    0.0 and [saldo] 0.0; of its two balance columns, the one of its nature
    is 0.0 and the other is the negative zero -0.0, since [max(-0.0, 0)]
    keeps its first argument: [saldo_credor] for a "Devedora" account,
    [saldo_devedor] for any other. *)
Theorem conta_sem_lancamento_zero_negativo :
  forall (plano_contas : list Conta) (lancamentos : list (Lancamento b64))
         (r : LinhaBalancete b64),
    In r (calcula_balancete plano_contas lancamentos) ->
    (forall l, In l lancamentos ->
       conta_debito l <> codigo (cadastro (totais r)) /\
       conta_credito l <> codigo (cadastro (totais r))) ->
    debito (totais r) = S754_zero false /\
    credito (totais r) = S754_zero false /\
    saldo r = S754_zero false /\
    (natureza (cadastro (totais r)) = Texto "Devedora" ->
       saldo_devedor r = S754_zero false /\ saldo_credor r = S754_zero true) /\
    (natureza (cadastro (totais r)) <> Texto "Devedora" ->
       saldo_credor r = S754_zero false /\ saldo_devedor r = S754_zero true).
Proof.
  intros plano lancs r Hr Hsem.
  pose proof (balancete_conta_sem_lancamento b64 Numero_b64 plano lancs r Hr Hsem) as Heq.
  set (a := cadastro (totais r)) in *. clearbody a. subst r.
  unfold calcula_saldos. cbn [cadastro debito credito].
  destruct (celula_igual (natureza a) "Devedora") eqn:Hnat.
  - apply celula_igual_spec in Hnat.
    split; [reflexivity|]. split; [reflexivity|]. split; [reflexivity|]. split.
    + intros _. split; reflexivity.
    + intros Hne. contradiction.
  - split; [reflexivity|]. split; [reflexivity|]. split; [reflexivity|]. split.
    + intros Habs. apply celula_igual_spec in Habs. congruence.
    + intros _. split; reflexivity.
Qed.

Lemma conta_sem_lancamento_zero_negativo_witness :
  let bancos :=
    {| codigo := "1.1.2"; conta := "Bancos Conta Movimento"; grupo := "Ativo";
       natureza := Texto "Devedora"; eh_caixa := true |} in
  let r := calcula_saldos {| cadastro := bancos;
                             debito := b64_of_Z 0; credito := b64_of_Z 0 |} in
  In r (calcula_balancete init_plano_contas diario_cenario) /\
  saldo_devedor r = S754_zero false /\ saldo_credor r = S754_zero true.
Proof.
  intros bancos r.
  assert (Hin : In r (calcula_balancete init_plano_contas diario_cenario))
    by (right; left; vm_compute; reflexivity).
  split; [exact Hin|].
  refine (proj1 (proj2 (proj2 (proj2
            (conta_sem_lancamento_zero_negativo init_plano_contas diario_cenario r Hin _))))
            eq_refl).
  intros l [<-|[<-|[]]]; split; discriminate.
Defined.
